(** * kubelogin: the token acquisition use-cases

    A shallow embedding of [pkg/usecases/credentialplugin/get_token.go]
    (the [GetToken.Do] use-case) together with the collaborators it talks
    to, and of the configuration-mode use-case [Standalone.Do].

    Collaborators (mutex, token cache, authentication, writer, logger) are
    Go interfaces; they are embedded as records of state-passing functions
    over an arbitrary world [W].  Every call a use-case makes is appended,
    with its arguments and its result, to a history of [Event]s, so that
    statements such as "Save is called exactly once" or "Release is called
    last" are statements about that history. *)

From Stdlib Require Import String Ascii List ZArith Bool Lia Sorted Permutation.
Import ListNotations.
Local Open Scope string_scope.
Local Open Scope list_scope.

Set Implicit Arguments.

(* ------------------------------------------------------------------ *)
(** ** Go library functions used by the use-case *)

Module strings.

(** [strings.Join(elems, sep)]: empty for no element, the element itself
    for one, otherwise the first element followed by [sep ++ s] for each
    further element [s]. *)
Fixpoint join_rest (sep : string) (rest : list string) : string :=
  match rest with
  | [] => ""
  | s :: rest' => sep ++ s ++ join_rest sep rest'
  end.

Definition Join (elems : list string) (sep : string) : string :=
  match elems with
  | [] => ""
  | [e] => e
  | e :: rest => e ++ join_rest sep rest
  end.

(** [strings.HasSuffix] and the slice [s[:len(s)-n]]. *)
Definition HasSuffix (s suffix : string) : bool :=
  let n := String.length s in
  let k := String.length suffix in
  (k <=? n)%nat && String.eqb (substring (n - k) k s) suffix.

Definition dropRight (n : nat) (s : string) : string :=
  substring 0 (String.length s - n) s.

End strings.

(** Go's [error] values, as far as the use-cases build and inspect them:
    an opaque error made by a collaborator ([xerrors.New]) or an error
    wrapping a cause under a message ([xerrors.Errorf] with [: %w]). *)
Inductive error : Type :=
| errorString (s : string)
| wrapError (msg : string) (err : error)
| noWrapError (msg : string).

Module xerrors.

Definition New (text : string) : error := errorString text.

(** The message an error prints, [err.Error()]. *)
Fixpoint Error (e : error) : string :=
  match e with
  | errorString s => s
  | wrapError msg err => msg ++ ": " ++ Error err
  | noWrapError msg => msg
  end.

(** [xerrors.Errorf(format, err)] with one error argument.  When the
    format ends in [": %w"] the result wraps [err] and carries the format
    without that suffix as its message; the formats of this repository
    contain no other verb.  Any other format yields an error that wraps
    nothing. *)
Definition Errorf (format : string) (err : error) : error :=
  if strings.HasSuffix format ": %w"
  then wrapError (strings.dropRight 4 format) err
  else noWrapError format.

(** [xerrors.Unwrap]. *)
Definition Unwrap (e : error) : option error :=
  match e with
  | wrapError _ err => Some err
  | _ => None
  end.

End xerrors.

(** [time.Time], as seconds since the epoch. *)
Definition Time := Z.

(** [context.Context]: threaded through to the collaborators, never
    inspected by the use-cases. *)
Module context.
Record Context : Type := { deadline : option Time }.
Definition TODO : Context := {| deadline := None |}.
End context.

(* ------------------------------------------------------------------ *)
(** ** Data transfer objects *)

Module jwt.
(** The decoded claims of an ID token; the fields the use-case reads. *)
Record Claims : Type := { Pretty : string; Expiry : Time }.
End jwt.

Module oidc.
Record Provider : Type := {
  IssuerURL : string;
  ClientID : string;
  ClientSecret : string;
  ExtraScopes : list string
}.

Record TokenSet : Type := {
  IDToken : string;
  RefreshToken : string
}.
End oidc.

Module tlsclientconfig.
Record Config : Type := {
  CACertFilename : list string;
  CACertData : list string;
  SkipTLSVerify : bool
}.
End tlsclientconfig.

Module ropc.
(** The resource-owner-password option.  [Username] is the field read by
    the key derivation; [Password] stands for what else the option
    carries, which the use-case hands on without reading it. *)
Record Option : Type := { Username : string; Password : string }.
End ropc.

Module mutex.
Record Lock : Type := { Data : string }.

Record Interface (W : Type) : Type := {
  Acquire : context.Context -> string -> W -> (option Lock * option error) * W;
  Release : option Lock -> W -> option error * W
}.
End mutex.

Module tokencache.
(** [tokencache.Key], the fields set at get_token.go:65-76. *)
Record Key : Type := {
  IssuerURL : string;
  ClientID : string;
  ClientSecret : string;
  Username : string;
  ExtraScopes : list string;
  CACertFilename : string;
  CACertData : string;
  SkipTLSVerify : bool
}.

Record Interface (W : Type) : Type := {
  FindByKey : string -> Key -> W -> (option oidc.TokenSet * option error) * W;
  Save : string -> Key -> oidc.TokenSet -> W -> option error * W
}.
End tokencache.

Module authentication.
(** The grant options; [ROPCOption] is the one [GetToken.Do] looks into,
    a nil pointer when the password grant is not selected. *)
Record GrantOptionSet : Type := {
  ROPCOption : option ropc.Option
}.

(** [authentication.Input]; the field [GrantOptionSet] carries an underscore
    here, its name being taken by its type. *)
Record Input : Type := {
  Provider : oidc.Provider;
  GrantOptionSet_ : GrantOptionSet;
  CachedTokenSet : option oidc.TokenSet;
  TLSClientConfig : tlsclientconfig.Config
}.

Record Output : Type := {
  AlreadyHasValidIDToken : bool;
  TokenSet : oidc.TokenSet
}.

Record Interface (W : Type) : Type := {
  Do : context.Context -> Input -> W -> (option Output * option error) * W
}.
End authentication.

Module credentialpluginwriter.
Record Output : Type := {
  Token : string;
  Expiry : Time
}.

Record Interface (W : Type) : Type := {
  Write : Output -> W -> option error * W
}.
End credentialpluginwriter.

Module logger.
(** An argument of a log line. *)
Inductive Arg : Type :=
  | ArgString (s : string)
  | ArgError (e : error)
  | ArgTime (t : Time).

(** [Logger.V(level).Infof(format, args...)]. *)
Record Interface (W : Type) : Type := {
  V_Infof : Z -> string -> list Arg -> W -> W
}.
End logger.

(* ------------------------------------------------------------------ *)
(** ** Effects: state passing with a history of calls *)

Module effect.
Section Monad.
Variables E W : Type.

(** What a computation leaves behind: its value, the calls it made in
    order, and the world after it. *)
Record Result (A : Type) : Type := mkResult {
  value : A;
  events : list E;
  world : W
}.

Definition M (A : Type) : Type := W -> Result A.

Definition ret {A} (a : A) : M A := fun w => mkResult a [] w.

Definition bind {A B} (m : M A) (f : A -> M B) : M B :=
  fun w =>
    match m w with
    | mkResult a tr w' =>
        match f a w' with
        | mkResult b tr' w'' => mkResult b (tr ++ tr') w''
        end
    end.

(** One call of a collaborator method [f], recorded by [ev]. *)
Definition call {A} (f : W -> A * W) (ev : A -> E) : M A :=
  fun w => match f w with (a, w') => mkResult a [ev a] w' end.

(** A collaborator method without a result. *)
Definition call_ (f : W -> W) (ev : E) : M unit :=
  fun w => mkResult tt [ev] (f w).

(** Go's [defer]: [cleanup] runs when [body] is left, whatever the way,
    and what [body] yields is what the function yields. *)
Definition defer {A} (cleanup : M unit) (body : M A) : M A :=
  bind body (fun r => bind cleanup (fun _ => ret r)).
End Monad.

Arguments mkResult {E W A}.
Arguments value {E W A}.
Arguments events {E W A}.
Arguments world {E W A}.
Arguments ret {E W A}.
Arguments bind {E W A B}.
Arguments call {E W A}.
Arguments call_ {E W}.
Arguments defer {E W A}.
End effect.

Declare Scope effect_scope.
Delimit Scope effect_scope with effect.
Notation "x <- m ;; k" := (effect.bind m (fun x => k))
  (at level 61, m at next level, right associativity) : effect_scope.
Notation "' pat <- m ;; k" := (effect.bind m (fun x => match x with pat => k end))
  (at level 61, pat pattern, m at next level, right associativity) : effect_scope.
Notation "m ;; k" := (effect.bind m (fun _ => k))
  (at level 61, right associativity) : effect_scope.

(** How a Go function is left: by [return err] (nil is [None]) or by a
    run-time panic. *)
Inductive Outcome : Type :=
| Returned (err : option error)
| Panicked.

(* ------------------------------------------------------------------ *)
(** ** The GetToken use-case (cache-file mode) *)

Module credentialplugin.
Import effect.

(** [Input], the input DTO of the use-case. *)
Record Input : Type := {
  IssuerURL : string;
  ClientID : string;
  ClientSecret : string;
  ExtraScopes : list string;
  TokenCacheDir : string;
  GrantOptionSet : authentication.GrantOptionSet;
  TLSClientConfig : tlsclientconfig.Config
}.

Record GetToken (W : Type) : Type := {
  Authentication : authentication.Interface W;
  TokenCacheRepository : tokencache.Interface W;
  Writer : credentialpluginwriter.Interface W;
  Mutex : mutex.Interface W;
  Logger : logger.Interface W
}.

(** The calls [Do] makes, each with its arguments and what came back. *)
Inductive Event : Type :=
  | EvInfof (level : Z) (format : string) (args : list logger.Arg)
  | EvAcquire (ctx : context.Context) (name : string)
      (res : option mutex.Lock * option error)
  | EvRelease (lock : option mutex.Lock) (res : option error)
  | EvFindByKey (dir : string) (key : tokencache.Key)
      (res : option oidc.TokenSet * option error)
  | EvAuthenticate (ctx : context.Context) (input : authentication.Input)
      (res : option authentication.Output * option error)
  | EvDecode (ts : oidc.TokenSet) (res : jwt.Claims * option error)
  | EvSave (dir : string) (key : tokencache.Key) (ts : oidc.TokenSet)
      (res : option error)
  | EvWrite (out : credentialpluginwriter.Output) (res : option error).

(** The value of the local [tokenCacheKey] (get_token.go:65-76): the
    struct literal, then [Username] set when the ROPC option is there. *)
Definition tokenCacheKey (in_ : Input) : tokencache.Key :=
  {| tokencache.IssuerURL := IssuerURL in_;
     tokencache.ClientID := ClientID in_;
     tokencache.ClientSecret := ClientSecret in_;
     tokencache.Username :=
       match authentication.ROPCOption (GrantOptionSet in_) with
       | Some o => ropc.Username o
       | None => ""
       end;
     tokencache.ExtraScopes := ExtraScopes in_;
     tokencache.CACertFilename :=
       strings.Join (tlsclientconfig.CACertFilename (TLSClientConfig in_)) ",";
     tokencache.CACertData :=
       strings.Join (tlsclientconfig.CACertData (TLSClientConfig in_)) ",";
     tokencache.SkipTLSVerify :=
       tlsclientconfig.SkipTLSVerify (TLSClientConfig in_) |}.

(** The value of the local [authenticationInput] (get_token.go:82-92). *)
Definition authenticationInput (in_ : Input)
    (cachedTokenSet : option oidc.TokenSet) : authentication.Input :=
  {| authentication.Provider :=
       {| oidc.IssuerURL := IssuerURL in_;
          oidc.ClientID := ClientID in_;
          oidc.ClientSecret := ClientSecret in_;
          oidc.ExtraScopes := ExtraScopes in_ |};
     authentication.GrantOptionSet_ := GrantOptionSet in_;
     authentication.CachedTokenSet := cachedTokenSet;
     authentication.TLSClientConfig := TLSClientConfig in_ |}.

Section Do.
Variable W : Type.

(** [TokenSet.DecodeWithoutVerify], a pure function of package [oidc]. *)
Variable DecodeWithoutVerify : oidc.TokenSet -> jwt.Claims * option error.

Variable u : GetToken W.

Local Open Scope effect_scope.

(** The calls of [Do] on its collaborators, each leaving its event. *)

(** [u.Logger.V(1).Infof(format, args...)]. *)
Definition Infof (format : string) (args : list logger.Arg) : M Event W unit :=
  call_ (logger.V_Infof (Logger u) 1 format args) (EvInfof 1 format args).

Definition Acquire (ctx : context.Context) (name : string) :=
  call (mutex.Acquire (Mutex u) ctx name) (EvAcquire ctx name).

(** [_ = u.Mutex.Release(lock)]: the error of the release is dropped. *)
Definition Release (lock : option mutex.Lock) : M Event W unit :=
  _ <- call (mutex.Release (Mutex u) lock) (EvRelease lock) ;; ret tt.

Definition FindByKey (dir : string) (key : tokencache.Key) :=
  call (tokencache.FindByKey (TokenCacheRepository u) dir key)
       (EvFindByKey dir key).

Definition Authenticate (ctx : context.Context) (input : authentication.Input) :=
  call (authentication.Do (Authentication u) ctx input)
       (EvAuthenticate ctx input).

(** [ts.DecodeWithoutVerify()]: the world is left as it is. *)
Definition Decode (ts : oidc.TokenSet) : M Event W (jwt.Claims * option error) :=
  call (fun w => (DecodeWithoutVerify ts, w)) (EvDecode ts).

Definition Save (dir : string) (key : tokencache.Key) (ts : oidc.TokenSet) :=
  call (tokencache.Save (TokenCacheRepository u) dir key ts)
       (EvSave dir key ts).

Definition WriteOutput (out : credentialpluginwriter.Output) :=
  call (credentialpluginwriter.Write (Writer u) out) (EvWrite out).

(** [func (u *GetToken) Do(ctx context.Context, in Input) error]
    (get_token.go:52-120).  The release of the lock is deferred once the
    lock is held, so it runs on every way out after that, the panic
    included that a nil output with a nil error of the delegate causes at
    [authenticationOutput.TokenSet]. *)
Definition Do (ctx : context.Context) (in_ : Input) : M Event W Outcome :=
  Infof "WARNING: log may contain your secrets such as token or password" [] ;;
  '(lock, err) <- Acquire ctx "get-token" ;;
  match err with
  | Some err => ret (Returned (Some err))
  | None =>
      defer (Release lock)
        (Infof "finding a token from cache directory %s"
               [logger.ArgString (TokenCacheDir in_)] ;;
         let key := tokenCacheKey in_ in
         '(cachedTokenSet, err) <- FindByKey (TokenCacheDir in_) key ;;
         match err with
         | Some err =>
             Infof "could not find a token cache: %s" [logger.ArgError err]
         | None => ret tt
         end ;;
         '(authenticationOutput, err) <-
           Authenticate ctx (authenticationInput in_ cachedTokenSet) ;;
         match err with
         | Some err =>
             ret (Returned (Some (xerrors.Errorf "authentication error: %w" err)))
         | None =>
             match authenticationOutput with
             | None => ret Panicked
             | Some authenticationOutput =>
               let tokenSet := authentication.TokenSet authenticationOutput in
               '(idTokenClaims, err) <- Decode tokenSet ;;
               match err with
               | Some err =>
                   ret (Returned (Some (xerrors.Errorf "you got an invalid token: %w" err)))
               | None =>
                   Infof "you got a token: %s" [logger.ArgString (jwt.Pretty idTokenClaims)] ;;
                   saved <-
                     (if authentication.AlreadyHasValidIDToken authenticationOutput
                      then
                        Infof "you already have a valid token until %s"
                              [logger.ArgTime (jwt.Expiry idTokenClaims)] ;;
                        ret None
                      else
                        Infof "you got a valid token until %s"
                              [logger.ArgTime (jwt.Expiry idTokenClaims)] ;;
                        Save (TokenCacheDir in_) key tokenSet) ;;
                   match saved with
                   | Some err =>
                       ret (Returned (Some (xerrors.Errorf "could not write the token cache: %w" err)))
                   | None =>
                       Infof "writing the token to client-go" [] ;;
                       let out :=
                         {| credentialpluginwriter.Token := oidc.IDToken tokenSet;
                            credentialpluginwriter.Expiry := jwt.Expiry idTokenClaims |} in
                       err <- WriteOutput out ;;
                       match err with
                       | Some err =>
                           ret (Returned (Some (xerrors.Errorf
                                  "could not write the token to client-go: %w" err)))
                       | None => ret (Returned None)
                       end
                   end
               end
             end
         end)
  end.
End Do.
End credentialplugin.

(* ------------------------------------------------------------------ *)
(** ** Reading a history of [GetToken.Do] *)

Module history.
Import credentialplugin.

(** The arguments of the [Save] calls, in order. *)
Fixpoint save_calls (tr : list Event)
  : list (string * tokencache.Key * oidc.TokenSet) :=
  match tr with
  | [] => []
  | EvSave dir key ts _ :: tr' => (dir, key, ts) :: save_calls tr'
  | _ :: tr' => save_calls tr'
  end.

(** The outputs handed to the writer, in order. *)
Fixpoint write_calls (tr : list Event) : list credentialpluginwriter.Output :=
  match tr with
  | [] => []
  | EvWrite out _ :: tr' => out :: write_calls tr'
  | _ :: tr' => write_calls tr'
  end.

(** The cache lookups, in order. *)
Fixpoint find_calls (tr : list Event) : list (string * tokencache.Key) :=
  match tr with
  | [] => []
  | EvFindByKey dir key _ :: tr' => (dir, key) :: find_calls tr'
  | _ :: tr' => find_calls tr'
  end.

(** The inputs handed to the authentication use-case, in order. *)
Fixpoint authenticate_calls (tr : list Event) : list authentication.Input :=
  match tr with
  | [] => []
  | EvAuthenticate _ input _ :: tr' => input :: authenticate_calls tr'
  | _ :: tr' => authenticate_calls tr'
  end.

(** The locks handed back to the mutex, in order. *)
Fixpoint release_calls (tr : list Event) : list (option mutex.Lock) :=
  match tr with
  | [] => []
  | EvRelease lock _ :: tr' => lock :: release_calls tr'
  | _ :: tr' => release_calls tr'
  end.

(** The last call of a history. *)
Fixpoint final (tr : list Event) : option Event :=
  match tr with
  | [] => None
  | [e] => Some e
  | _ :: tr' => final tr'
  end.

(** The steps of an invocation, log lines apart. *)
Inductive Step : Type :=
| Acquiring | Finding | Authenticating | Decoding | Saving | Writing | Releasing.

Definition step_of (e : Event) : option Step :=
  match e with
  | EvInfof _ _ _ => None
  | EvAcquire _ _ _ => Some Acquiring
  | EvRelease _ _ => Some Releasing
  | EvFindByKey _ _ _ => Some Finding
  | EvAuthenticate _ _ _ => Some Authenticating
  | EvDecode _ _ => Some Decoding
  | EvSave _ _ _ _ => Some Saving
  | EvWrite _ _ => Some Writing
  end.

Fixpoint steps (tr : list Event) : list Step :=
  match tr with
  | [] => []
  | e :: tr' =>
      match step_of e with
      | Some s => s :: steps tr'
      | None => steps tr'
      end
  end.

(** The place of each step in the text of [Do]; the deferred release runs
    when the function is left. *)
Definition position_in_code (s : Step) : nat :=
  match s with
  | Acquiring => 1
  | Finding => 2
  | Authenticating => 3
  | Decoding => 4
  | Saving => 5
  | Writing => 6
  | Releasing => 7
  end.

(** Follows the spec's words (4.2, steps 1 to 6): guard acquisition (1),
    key derivation and lookup (2), authentication (3), cache save (4),
    guard release (5), then token decoding and the sink write (6). *)
Definition position_in_spec (s : Step) : nat :=
  match s with
  | Acquiring => 1
  | Finding => 2
  | Authenticating => 3
  | Saving => 4
  | Releasing => 5
  | Decoding => 6
  | Writing => 6
  end.

(** The steps taken come one after the other in the code's order, none
    twice. *)
Definition in_code_order (l : list Step) : Prop :=
  StronglySorted (fun a b => position_in_code a < position_in_code b) l.

(** The steps taken never go back in the spec's listing. *)
Definition in_spec_order (l : list Step) : Prop :=
  StronglySorted (fun a b => position_in_spec a <= position_in_spec b) l.

(** The wrapping messages of [Do], one per stage that wraps. *)
Inductive Stage : Type :=
| AuthenticationStage | DecodeStage | CacheSaveStage | SinkWriteStage.

Definition stage_message (s : Stage) : string :=
  match s with
  | AuthenticationStage => "authentication error"
  | DecodeStage => "you got an invalid token"
  | CacheSaveStage => "could not write the token cache"
  | SinkWriteStage => "could not write the token to client-go"
  end.

(** The history shows the collaborator of stage [s] failing with [cause]. *)
Definition failed_at (s : Stage) (cause : error) (tr : list Event) : Prop :=
  match s with
  | AuthenticationStage =>
      exists ctx input out, In (EvAuthenticate ctx input (out, Some cause)) tr
  | DecodeStage =>
      exists ts claims, In (EvDecode ts (claims, Some cause)) tr
  | CacheSaveStage =>
      exists dir key ts, In (EvSave dir key ts (Some cause)) tr
  | SinkWriteStage =>
      exists out, In (EvWrite out (Some cause)) tr
  end.

End history.

(* ------------------------------------------------------------------ *)
(** ** The Standalone use-case (configuration mode) *)

Module kubeconfig.

(** [kubeconfig.AuthProvider], as the tests of the use-case build it. *)
Record AuthProvider : Type := {
  LocationOfOrigin : string;
  UserName : string;
  IDPIssuerURL : string;
  ClientID : string;
  ClientSecret : string;
  IDPCertificateAuthority : string;
  IDPCertificateAuthorityData : string;
  IDToken : string;
  RefreshToken : string
}.

(** The configuration store: an entry or an error on reading, nil or an
    error on writing. *)
Record Interface (W : Type) : Type := {
  GetCurrentAuthProvider : string -> string -> string -> W -> (AuthProvider + error) * W;
  UpdateAuthProvider : AuthProvider -> W -> option error * W
}.

End kubeconfig.

Module standalone.
Import effect.

Record Input : Type := {
  KubeconfigFilename : string;
  KubeconfigContext : string;
  KubeconfigUser : string;
  GrantOptionSet : authentication.GrantOptionSet
}.

Record Standalone (W : Type) : Type := {
  Authentication : authentication.Interface W;
  Kubeconfig : kubeconfig.Interface W;
  Logger : logger.Interface W
}.

Inductive Event : Type :=
| EvGetCurrentAuthProvider (filename contextName userName : string)
    (res : kubeconfig.AuthProvider + error)
| EvAuthenticate (ctx : context.Context) (input : authentication.Input)
    (res : option authentication.Output * option error)
| EvDecode (ts : oidc.TokenSet) (res : jwt.Claims * option error)
| EvUpdateAuthProvider (entry : kubeconfig.AuthProvider) (res : option error).

(** A one-element list for a non-empty string, no element otherwise. *)
Definition singleton_unless_empty (s : string) : list string :=
  if String.eqb s "" then [] else [s].

(** The authentication input built from the entry read. *)
Definition authenticationInput (in_ : Input) (authProvider : kubeconfig.AuthProvider)
  : authentication.Input :=
  {| authentication.Provider :=
       {| oidc.IssuerURL := kubeconfig.IDPIssuerURL authProvider;
          oidc.ClientID := kubeconfig.ClientID authProvider;
          oidc.ClientSecret := kubeconfig.ClientSecret authProvider;
          oidc.ExtraScopes := [] |};
     authentication.GrantOptionSet_ := GrantOptionSet in_;
     authentication.CachedTokenSet :=
       if String.eqb (kubeconfig.IDToken authProvider) "" then None
       else Some {| oidc.IDToken := kubeconfig.IDToken authProvider;
                    oidc.RefreshToken := kubeconfig.RefreshToken authProvider |};
     authentication.TLSClientConfig :=
       {| tlsclientconfig.CACertFilename :=
            singleton_unless_empty (kubeconfig.IDPCertificateAuthority authProvider);
          tlsclientconfig.CACertData :=
            singleton_unless_empty (kubeconfig.IDPCertificateAuthorityData authProvider);
          tlsclientconfig.SkipTLSVerify := false |} |}.

(** The entry with its two token fields replaced. *)
Definition with_tokens (authProvider : kubeconfig.AuthProvider) (ts : oidc.TokenSet)
  : kubeconfig.AuthProvider :=
  {| kubeconfig.LocationOfOrigin := kubeconfig.LocationOfOrigin authProvider;
     kubeconfig.UserName := kubeconfig.UserName authProvider;
     kubeconfig.IDPIssuerURL := kubeconfig.IDPIssuerURL authProvider;
     kubeconfig.ClientID := kubeconfig.ClientID authProvider;
     kubeconfig.ClientSecret := kubeconfig.ClientSecret authProvider;
     kubeconfig.IDPCertificateAuthority := kubeconfig.IDPCertificateAuthority authProvider;
     kubeconfig.IDPCertificateAuthorityData :=
       kubeconfig.IDPCertificateAuthorityData authProvider;
     kubeconfig.IDToken := oidc.IDToken ts;
     kubeconfig.RefreshToken := oidc.RefreshToken ts |}.

Section Do.
Variable W : Type.

(** [TokenSet.DecodeWithoutVerify], a pure function of package [oidc]. *)
Variable DecodeWithoutVerify : oidc.TokenSet -> jwt.Claims * option error.

Variable u : Standalone W.

Local Open Scope effect_scope.

(** Modelled from the spec: [Standalone.Do] of pkg/usecases/standalone,
    whose source file is not part of the sources at hand (its test is).
    The steps are those of section 4.3, with the decoding stage that
    section 7 puts after a successful authentication and before any write,
    for either mode: read the current entry, a failure being fatal before
    anything else is attempted; build the provider and TLS configuration
    from the entry; pass the entry's ID token as the reuse candidate when
    it has one; invoke the authentication delegate, a failure being fatal
    and tagged as an authentication error; decode the token set returned,
    a failure being fatal; when the delegate reports a fresh token, set
    the entry's token fields and write the entry back, a failure being
    fatal.  Section 4.3 gives this mode no guard, so none is taken.  The
    wrapping messages of the read, the decoding and the write stage are not
    given by the spec; the names of section 7 stand for them. *)
Definition Do (ctx : context.Context) (in_ : Input) : M Event W Outcome :=
  res <- call (kubeconfig.GetCurrentAuthProvider (Kubeconfig u)
                 (KubeconfigFilename in_) (KubeconfigContext in_) (KubeconfigUser in_))
              (EvGetCurrentAuthProvider
                 (KubeconfigFilename in_) (KubeconfigContext in_) (KubeconfigUser in_)) ;;
  match res with
  | inr err => ret (Returned (Some (xerrors.Errorf "configuration-read error: %w" err)))
  | inl authProvider =>
      let input := authenticationInput in_ authProvider in
      '(authenticationOutput, err) <-
        call (authentication.Do (Authentication u) ctx input) (EvAuthenticate ctx input) ;;
      match err with
      | Some err => ret (Returned (Some (xerrors.Errorf "authentication error: %w" err)))
      | None =>
          match authenticationOutput with
          | None => ret Panicked
          | Some authenticationOutput =>
              let tokenSet := authentication.TokenSet authenticationOutput in
              '(_, err) <- call (fun w => (DecodeWithoutVerify tokenSet, w))
                                (EvDecode tokenSet) ;;
              match err with
              | Some err =>
                  ret (Returned (Some (xerrors.Errorf "token-decode error: %w" err)))
              | None =>
                  if authentication.AlreadyHasValidIDToken authenticationOutput
                  then ret (Returned None)
                  else
                    let updated := with_tokens authProvider tokenSet in
                    err <- call (kubeconfig.UpdateAuthProvider (Kubeconfig u) updated)
                                (EvUpdateAuthProvider updated) ;;
                    match err with
                    | Some err =>
                        ret (Returned (Some (xerrors.Errorf "entry-update error: %w" err)))
                    | None => ret (Returned None)
                    end
              end
          end
      end
  end.
End Do.

(** The entries written back, in order. *)
Fixpoint update_calls (tr : list Event) : list kubeconfig.AuthProvider :=
  match tr with
  | [] => []
  | EvUpdateAuthProvider entry _ :: tr' => entry :: update_calls tr'
  | _ :: tr' => update_calls tr'
  end.

(** Two entries agree on every field but the two token fields. *)
Definition same_but_tokens (a b : kubeconfig.AuthProvider) : Prop :=
  kubeconfig.LocationOfOrigin a = kubeconfig.LocationOfOrigin b /\
  kubeconfig.UserName a = kubeconfig.UserName b /\
  kubeconfig.IDPIssuerURL a = kubeconfig.IDPIssuerURL b /\
  kubeconfig.ClientID a = kubeconfig.ClientID b /\
  kubeconfig.ClientSecret a = kubeconfig.ClientSecret b /\
  kubeconfig.IDPCertificateAuthority a = kubeconfig.IDPCertificateAuthority b /\
  kubeconfig.IDPCertificateAuthorityData a = kubeconfig.IDPCertificateAuthorityData b.

End standalone.

(* ------------------------------------------------------------------ *)
(** ** Scripted collaborators

    Collaborators that answer from a script and count the calls they
    receive, in the manner of the mocks of get_token_test.go; the world is
    the number of calls made so far. *)

Module scripted.

Record Script : Type := {
  acquire : option mutex.Lock * option error;
  release : option error;
  find : option oidc.TokenSet * option error;
  authenticate : option authentication.Output * option error;
  save : option error;
  write : option error
}.

Definition getToken (s : Script) : credentialplugin.GetToken nat :=
  {| credentialplugin.Authentication :=
       {| authentication.Do := fun _ _ n => (authenticate s, S n) |};
     credentialplugin.TokenCacheRepository :=
       {| tokencache.FindByKey := fun _ _ n => (find s, S n);
          tokencache.Save := fun _ _ _ n => (save s, S n) |};
     credentialplugin.Writer :=
       {| credentialpluginwriter.Write := fun _ n => (write s, S n) |};
     credentialplugin.Mutex :=
       {| mutex.Acquire := fun _ _ n => (acquire s, S n);
          mutex.Release := fun _ n => (release s, S n) |};
     credentialplugin.Logger :=
       {| logger.V_Infof := fun _ _ _ n => n |} |}.

(** A decoder that rejects the token ["malformed"] and reads a fixed
    expiry off any other. *)
Definition decode (ts : oidc.TokenSet) : jwt.Claims * option error :=
  if String.eqb (oidc.IDToken ts) "malformed"
  then ({| jwt.Pretty := ""; jwt.Expiry := 0%Z |},
        Some (errorString "token contains an invalid number of segments"))
  else ({| jwt.Pretty := "{}"; jwt.Expiry := 1700003600%Z |}, None).

Definition theLock : mutex.Lock := {| mutex.Data := "testData" |}.

Definition issuedTokenSet : oidc.TokenSet :=
  {| oidc.IDToken := "eyJhbGciOi.eyJpc3MiOi.c2ln";
     oidc.RefreshToken := "YOUR_REFRESH_TOKEN" |}.

Definition malformedTokenSet : oidc.TokenSet :=
  {| oidc.IDToken := "malformed"; oidc.RefreshToken := "" |}.

(** The input of the tests' [LeastOptions] case. *)
Definition leastOptions : credentialplugin.Input :=
  {| credentialplugin.IssuerURL := "https://accounts.google.com";
     credentialplugin.ClientID := "YOUR_CLIENT_ID";
     credentialplugin.ClientSecret := "";
     credentialplugin.ExtraScopes := [];
     credentialplugin.TokenCacheDir := "/path/to/token-cache";
     credentialplugin.GrantOptionSet := {| authentication.ROPCOption := None |};
     credentialplugin.TLSClientConfig :=
       {| tlsclientconfig.CACertFilename := [];
          tlsclientconfig.CACertData := [];
          tlsclientconfig.SkipTLSVerify := false |} |}.

(** [leastOptions] with the given CA certificate file names. *)
Definition withCACertFilename (names : list string) : credentialplugin.Input :=
  {| credentialplugin.IssuerURL := "https://accounts.google.com";
     credentialplugin.ClientID := "YOUR_CLIENT_ID";
     credentialplugin.ClientSecret := "";
     credentialplugin.ExtraScopes := [];
     credentialplugin.TokenCacheDir := "/path/to/token-cache";
     credentialplugin.GrantOptionSet := {| authentication.ROPCOption := None |};
     credentialplugin.TLSClientConfig :=
       {| tlsclientconfig.CACertFilename := names;
          tlsclientconfig.CACertData := [];
          tlsclientconfig.SkipTLSVerify := false |} |}.

(** [leastOptions] with the given extra scopes. *)
Definition withExtraScopes (scopes : list string) : credentialplugin.Input :=
  {| credentialplugin.IssuerURL := "https://accounts.google.com";
     credentialplugin.ClientID := "YOUR_CLIENT_ID";
     credentialplugin.ClientSecret := "";
     credentialplugin.ExtraScopes := scopes;
     credentialplugin.TokenCacheDir := "/path/to/token-cache";
     credentialplugin.GrantOptionSet := {| authentication.ROPCOption := None |};
     credentialplugin.TLSClientConfig :=
       {| tlsclientconfig.CACertFilename := [];
          tlsclientconfig.CACertData := [];
          tlsclientconfig.SkipTLSVerify := false |} |}.

(** The tests' [LeastOptions] case: nothing cached, a fresh token. *)
Definition freshRun : Script :=
  {| acquire := (Some theLock, None);
     release := None;
     find := (None, Some (errorString "file not found"));
     authenticate :=
       (Some {| authentication.AlreadyHasValidIDToken := false;
                authentication.TokenSet := issuedTokenSet |}, None);
     save := None;
     write := None |}.

(** The tests' [HasValidIDToken] case: the cached token is reused. *)
Definition reuseRun : Script :=
  {| acquire := (Some theLock, None);
     release := None;
     find := (Some issuedTokenSet, None);
     authenticate :=
       (Some {| authentication.AlreadyHasValidIDToken := true;
                authentication.TokenSet := issuedTokenSet |}, None);
     save := None;
     write := None |}.

(** The tests' [AuthenticationError] case. *)
Definition authenticationErrorRun : Script :=
  {| acquire := (Some theLock, None);
     release := None;
     find := (None, Some (errorString "file not found"));
     authenticate := (None, Some (errorString "authentication error"));
     save := None;
     write := None |}.

(** The lock cannot be taken. *)
Definition lockBusyRun : Script :=
  {| acquire := (None, Some (errorString "lock is held by another process"));
     release := None;
     find := (None, Some (errorString "file not found"));
     authenticate := (None, Some (errorString "authentication error"));
     save := None;
     write := None |}.

(** The delegate hands back a fresh token that does not decode. *)
Definition freshMalformedRun : Script :=
  {| acquire := (Some theLock, None);
     release := None;
     find := (None, Some (errorString "file not found"));
     authenticate :=
       (Some {| authentication.AlreadyHasValidIDToken := false;
                authentication.TokenSet := malformedTokenSet |}, None);
     save := None;
     write := None |}.

(** The delegate reports the reuse of a token that does not decode. *)
Definition reuseMalformedRun : Script :=
  {| acquire := (Some theLock, None);
     release := None;
     find := (Some malformedTokenSet, None);
     authenticate :=
       (Some {| authentication.AlreadyHasValidIDToken := true;
                authentication.TokenSet := malformedTokenSet |}, None);
     save := None;
     write := None |}.

(** The cache cannot be written. *)
Definition saveErrorRun : Script :=
  {| acquire := (Some theLock, None);
     release := None;
     find := (None, Some (errorString "file not found"));
     authenticate :=
       (Some {| authentication.AlreadyHasValidIDToken := false;
                authentication.TokenSet := issuedTokenSet |}, None);
     save := Some (errorString "permission denied");
     write := None |}.

(** The sink cannot be written. *)
Definition writeErrorRun : Script :=
  {| acquire := (Some theLock, None);
     release := None;
     find := (None, Some (errorString "file not found"));
     authenticate :=
       (Some {| authentication.AlreadyHasValidIDToken := false;
                authentication.TokenSet := issuedTokenSet |}, None);
     save := None;
     write := Some (errorString "broken pipe") |}.

(** Everything goes well but the release of the lock. *)
Definition releaseErrorRun : Script :=
  {| acquire := (Some theLock, None);
     release := Some (errorString "could not unlock the file");
     find := (None, Some (errorString "file not found"));
     authenticate :=
       (Some {| authentication.AlreadyHasValidIDToken := false;
                authentication.TokenSet := issuedTokenSet |}, None);
     save := None;
     write := None |}.

(** A repository that hands back a token set together with an error. *)
Definition staleWithErrorRun : Script :=
  {| acquire := (Some theLock, None);
     release := None;
     find := (Some issuedTokenSet, Some (errorString "trailing data in cache file"));
     authenticate :=
       (Some {| authentication.AlreadyHasValidIDToken := true;
                authentication.TokenSet := issuedTokenSet |}, None);
     save := None;
     write := None |}.

(** Two CA files and one CA datum, under the given cache directory and
    ROPC user name. *)
Definition withCertificates (dir userName : string) : credentialplugin.Input :=
  {| credentialplugin.IssuerURL := "https://accounts.google.com";
     credentialplugin.ClientID := "YOUR_CLIENT_ID";
     credentialplugin.ClientSecret := "YOUR_CLIENT_SECRET";
     credentialplugin.ExtraScopes := ["email"; "profile"];
     credentialplugin.TokenCacheDir := dir;
     credentialplugin.GrantOptionSet :=
       {| authentication.ROPCOption := Some {| ropc.Username := userName; ropc.Password := "" |} |};
     credentialplugin.TLSClientConfig :=
       {| tlsclientconfig.CACertFilename := ["/path/to/cert1"; "/path/to/cert2"];
          tlsclientconfig.CACertData := ["BASE64ENCODED"];
          tlsclientconfig.SkipTLSVerify := true |} |}.

(** The invocation of [Do] under a script. *)
Definition run (s : Script) (in_ : credentialplugin.Input)
  : effect.Result credentialplugin.Event nat Outcome :=
  credentialplugin.Do decode (getToken s) context.TODO in_ 0.

(** The entry of the standalone tests' [FullOptions] case. *)
Definition currentAuthProvider : kubeconfig.AuthProvider :=
  {| kubeconfig.LocationOfOrigin := "/path/to/kubeconfig";
     kubeconfig.UserName := "theUser";
     kubeconfig.IDPIssuerURL := "https://accounts.google.com";
     kubeconfig.ClientID := "YOUR_CLIENT_ID";
     kubeconfig.ClientSecret := "YOUR_CLIENT_SECRET";
     kubeconfig.IDPCertificateAuthority := "/path/to/cert2";
     kubeconfig.IDPCertificateAuthorityData := "BASE64ENCODED2";
     kubeconfig.IDToken := "";
     kubeconfig.RefreshToken := "" |}.

Definition fullOptions : standalone.Input :=
  {| standalone.KubeconfigFilename := "/path/to/kubeconfig";
     standalone.KubeconfigContext := "theContext";
     standalone.KubeconfigUser := "theUser";
     standalone.GrantOptionSet := {| authentication.ROPCOption := None |} |}.

Definition standaloneWith (auth : option authentication.Output * option error)
  : standalone.Standalone nat :=
  {| standalone.Authentication :=
       {| authentication.Do := fun _ _ n => (auth, S n) |};
     standalone.Kubeconfig :=
       {| kubeconfig.GetCurrentAuthProvider :=
            fun _ _ _ n => (inl currentAuthProvider, S n);
          kubeconfig.UpdateAuthProvider := fun _ n => (None, S n) |};
     standalone.Logger := {| logger.V_Infof := fun _ _ _ n => n |} |}.

End scripted.

(* ------------------------------------------------------------------ *)
(** ** Names that join without loss *)

Module names.

(** [strings.Contains(s, ",")]. *)
Fixpoint has_comma (s : string) : bool :=
  match s with
  | EmptyString => false
  | String c s' => Ascii.eqb c "," || has_comma s'
  end.

(** A name that is not empty and holds no comma. *)
Definition plain (s : string) : Prop :=
  s <> "" /\ has_comma s = false.

(** What follows a name in a joined string: nothing, or a comma and more. *)
Definition tail_like (t : string) : Prop :=
  t = "" \/ exists t', t = String "," t'.

End names.

(* ------------------------------------------------------------------ *)
(** ** A cache whose lookups never fail *)

Module lenient.
Import credentialplugin.

(** The collaborators [u] with a token cache that answers every lookup as
    that of [u] does, but never with an error: the token set of [u]'s
    answer comes back alone, and the world is the one that [u]'s answer
    and, when there was an error, the log line about it leave behind. *)
Definition without_lookup_errors {W : Type} (u : GetToken W) : GetToken W :=
  {| Authentication := Authentication u;
     TokenCacheRepository :=
       {| tokencache.FindByKey :=
            fun dir key w =>
              match tokencache.FindByKey (TokenCacheRepository u) dir key w with
              | ((cached, Some err), w') =>
                  ((cached, None),
                   logger.V_Infof (Logger u) 1 "could not find a token cache: %s"
                     [logger.ArgError err] w')
              | ((cached, None), w') => ((cached, None), w')
              end;
          tokencache.Save := tokencache.Save (TokenCacheRepository u) |};
     Writer := Writer u;
     Mutex := Mutex u;
     Logger := Logger u |}.

(** The lookup and the log line about its error. *)
Definition about_lookup (e : Event) : bool :=
  match e with
  | EvFindByKey _ _ _ => true
  | EvInfof _ format _ => String.eqb format "could not find a token cache: %s"
  | _ => false
  end.

(** A history without them. *)
Definition apart_from_lookup (tr : list Event) : list Event :=
  filter (fun e => negb (about_lookup e)) tr.

End lenient.

(* ------------------------------------------------------------------ *)
(** ** Statements under examination

    Readings of sentences of the specification that the code is compared
    with; each follows the sentence, not the code. *)

Module stated.
Import effect credentialplugin history.

Section OverCollaborators.
Variable W : Type.
Variable DecodeWithoutVerify : oidc.TokenSet -> jwt.Claims * option error.
Variable u : GetToken W.

(** "Whenever the delegate succeeds, Save is called exactly once with the
    derived key and the returned token set if the token is fresh, and not
    at all if it is reused." *)
Definition save_iff_fresh : Prop :=
  forall ctx in_ w ctx' input out,
    In (EvAuthenticate ctx' input (Some out, None))
       (events (Do DecodeWithoutVerify u ctx in_ w)) ->
    save_calls (events (Do DecodeWithoutVerify u ctx in_ w)) =
      if authentication.AlreadyHasValidIDToken out then []
      else [(TokenCacheDir in_, tokenCacheKey in_, authentication.TokenSet out)].

(** "The steps of an invocation run in the order of section 4.2." *)
Definition steps_in_spec_order : Prop :=
  forall ctx in_ w,
    in_spec_order (steps (events (Do DecodeWithoutVerify u ctx in_ w))).

(** "Every error [Do] returns is one wrapped under a message." *)
Definition every_error_wrapped : Prop :=
  forall ctx in_ w e,
    value (Do DecodeWithoutVerify u ctx in_ w) = Returned (Some e) ->
    exists msg cause, e = wrapError msg cause.
End OverCollaborators.

(** Two inputs equal except that the extra scopes, the CA file names or
    the CA data of one are those of the other in another order. *)
Definition reordered (a b : Input) : Prop :=
  IssuerURL a = IssuerURL b /\
  ClientID a = ClientID b /\
  ClientSecret a = ClientSecret b /\
  TokenCacheDir a = TokenCacheDir b /\
  GrantOptionSet a = GrantOptionSet b /\
  tlsclientconfig.SkipTLSVerify (TLSClientConfig a) =
    tlsclientconfig.SkipTLSVerify (TLSClientConfig b) /\
  Permutation (ExtraScopes a) (ExtraScopes b) /\
  Permutation (tlsclientconfig.CACertFilename (TLSClientConfig a))
              (tlsclientconfig.CACertFilename (TLSClientConfig b)) /\
  Permutation (tlsclientconfig.CACertData (TLSClientConfig a))
              (tlsclientconfig.CACertData (TLSClientConfig b)).

(** "Reordering those lists leaves the derived key unchanged." *)
Definition key_order_independent : Prop :=
  forall a b, reordered a b -> tokenCacheKey a = tokenCacheKey b.

(** "When the lookup returns an error, the delegate is called with no
    cached token as the reuse candidate." *)
Definition lookup_error_means_no_candidate (W : Type)
    (DecodeWithoutVerify : oidc.TokenSet -> jwt.Claims * option error)
    (u : GetToken W) : Prop :=
  forall ctx in_ w dir key cached e,
    In (EvFindByKey dir key (cached, Some e))
       (events (Do DecodeWithoutVerify u ctx in_ w)) ->
    exists ctx' input res,
      In (EvAuthenticate ctx' input res)
         (events (Do DecodeWithoutVerify u ctx in_ w)) /\
      authentication.CachedTokenSet input = None.

(** "In configuration mode, when the delegate reports a fresh token, the
    entry is written back with only its two token fields changed." *)
Definition fresh_entry_written_back (W : Type)
    (DecodeWithoutVerify : oidc.TokenSet -> jwt.Claims * option error)
    (u : standalone.Standalone W) : Prop :=
  forall ctx in_ w filename contextName userName entry ctx' input out,
    In (standalone.EvGetCurrentAuthProvider filename contextName userName (inl entry))
       (events (standalone.Do DecodeWithoutVerify u ctx in_ w)) ->
    In (standalone.EvAuthenticate ctx' input (Some out, None))
       (events (standalone.Do DecodeWithoutVerify u ctx in_ w)) ->
    authentication.AlreadyHasValidIDToken out = false ->
    exists written,
      standalone.update_calls (events (standalone.Do DecodeWithoutVerify u ctx in_ w))
        = [written] /\
      standalone.same_but_tokens written entry /\
      kubeconfig.IDToken written = oidc.IDToken (authentication.TokenSet out) /\
      kubeconfig.RefreshToken written = oidc.RefreshToken (authentication.TokenSet out).

End stated.

(* ------------------------------------------------------------------ *)
(** ** Facts about the library functions *)

Lemma Errorf_wrap (prefix : string) (err : error) :
  strings.HasSuffix (prefix ++ ": %w")%string ": %w" = true ->
  strings.dropRight 4 (prefix ++ ": %w")%string = prefix ->
  xerrors.Errorf (prefix ++ ": %w")%string err = wrapError prefix err.
Proof.
  intros Hs Hd. unfold xerrors.Errorf. now rewrite Hs, Hd.
Qed.

Lemma Errorf_stage (s : history.Stage) (err : error) :
  xerrors.Errorf (history.stage_message s ++ ": %w")%string err
  = wrapError (history.stage_message s) err.
Proof.
  destruct s; apply Errorf_wrap; reflexivity.
Qed.

Lemma stage_message_inj (s s' : history.Stage) :
  history.stage_message s = history.stage_message s' -> s = s'.
Proof.
  destruct s, s'; cbn; intros H; try reflexivity; discriminate H.
Qed.

Lemma Errorf_message (s : history.Stage) (err : error) :
  xerrors.Error (xerrors.Errorf (history.stage_message s ++ ": %w")%string err)
  = (history.stage_message s ++ ": " ++ xerrors.Error err)%string.
Proof.
  now rewrite Errorf_stage.
Qed.

Lemma Join_comma_example :
  strings.Join ["/path/to/cert1"; "/path/to/cert2"] ","
  = "/path/to/cert1,/path/to/cert2".
Proof. reflexivity. Qed.

(* ------------------------------------------------------------------ *)
(** ** The runs of the tests *)

Example LeastOptions_run :
  effect.value (scripted.run scripted.freshRun scripted.leastOptions) = Returned None /\
  history.steps (effect.events (scripted.run scripted.freshRun scripted.leastOptions))
  = [history.Acquiring; history.Finding; history.Authenticating; history.Decoding;
     history.Saving; history.Writing; history.Releasing].
Proof. split; reflexivity. Qed.

Example HasValidIDToken_run :
  effect.value (scripted.run scripted.reuseRun scripted.leastOptions) = Returned None /\
  history.steps (effect.events (scripted.run scripted.reuseRun scripted.leastOptions))
  = [history.Acquiring; history.Finding; history.Authenticating; history.Decoding;
     history.Writing; history.Releasing].
Proof. split; reflexivity. Qed.

Example AuthenticationError_run :
  effect.value (scripted.run scripted.authenticationErrorRun scripted.leastOptions)
  = Returned (Some (wrapError "authentication error" (errorString "authentication error"))) /\
  history.steps
    (effect.events (scripted.run scripted.authenticationErrorRun scripted.leastOptions))
  = [history.Acquiring; history.Finding; history.Authenticating; history.Releasing].
Proof. split; reflexivity. Qed.

(* ------------------------------------------------------------------ *)
(** ** Case analysis of an invocation *)

Import effect credentialplugin history.

Ltac unfold_Do :=
  unfold Do, defer, Infof, Acquire, Release, FindByKey, Authenticate, Decode,
    Save, WriteOutput, bind, call, call_, ret.

(** Split on what the next collaborator call returns. *)
Ltac split_call decode :=
  match goal with
  | |- context [mutex.Acquire ?m ?c ?n ?x] =>
      destruct (mutex.Acquire m c n x) as [[? [?|]] ?] eqn:?
  | |- context [tokencache.FindByKey ?m ?d ?k ?x] =>
      destruct (tokencache.FindByKey m d k x) as [[? [?|]] ?] eqn:?
  | |- context [authentication.Do ?m ?c ?i ?x] =>
      destruct (authentication.Do m c i x) as [[[[[] ?]|] [?|]] ?] eqn:?
  | |- context [decode ?ts] =>
      destruct (decode ts) as [? [?|]] eqn:?
  | |- context [tokencache.Save ?m ?d ?k ?t ?x] =>
      destruct (tokencache.Save m d k t x) as [[?|] ?] eqn:?
  | |- context [credentialpluginwriter.Write ?m ?o ?x] =>
      destruct (credentialpluginwriter.Write m o x) as [[?|] ?] eqn:?
  | |- context [mutex.Release ?m ?l ?x] =>
      destruct (mutex.Release m l x) as [? ?] eqn:?
  end;
  cbn [value events world app
       authentication.AlreadyHasValidIDToken authentication.TokenSet].

(** Replace the run in sight by each of the results it can have. *)
Ltac paths decode :=
  match goal with
  | |- context [Do ?d ?u ?c ?i ?w] =>
      let r := fresh "r" in
      let Hr := fresh "Hr" in
      remember (Do d u c i w) as r eqn:Hr in *;
      revert Hr; unfold_Do; repeat split_call decode;
      intros ->; cbn [value events world] in *
  end.

(** Locate an event in a history written out in full. *)
Ltac find_event H :=
  cbn [In] in H;
  repeat (destruct H as [H | H]; [try discriminate H | ]);
  try contradiction.

Section GetTokenFacts.
Variable W : Type.
Variable decode : oidc.TokenSet -> jwt.Claims * option error.
Variable u : GetToken W.
Variable ctx : context.Context.
Variable in_ : Input.
Variable w : W.

Local Notation "'run'" := (Do decode u ctx in_ w).

(** C4. When [Mutex.Acquire] returns an error, [Do] returns that error at
    once: the history is the warning line and the failed acquisition, so
    there is no cache lookup, no authentication call, no cache save and no
    sink write (and nothing to release). *)
Theorem acquire_error_stops_everything ctx' name lock e :
  In (EvAcquire ctx' name (lock, Some e)) (events run) ->
  value run = Returned (Some e) /\
  events run =
    [EvInfof 1 "WARNING: log may contain your secrets such as token or password" [];
     EvAcquire ctx "get-token" (lock, Some e)] /\
  find_calls (events run) = [] /\
  authenticate_calls (events run) = [] /\
  save_calls (events run) = [] /\
  write_calls (events run) = [] /\
  release_calls (events run) = [].
Proof.
  intros H; paths decode; find_event H;
    injection H as -> -> -> ->; try discriminate.
  cbn; auto 10.
Qed.

(** C5. When the authentication delegate returns an error, [Do] returns
    that error wrapped as "authentication error", nothing is saved to the
    cache, nothing is written to the sink, and the lock taken at the start
    is released as the last call. *)
Theorem authentication_error_wrapped_and_lock_released ctx' input out e :
  In (EvAuthenticate ctx' input (out, Some e)) (events run) ->
  value run = Returned (Some (xerrors.Errorf "authentication error: %w" e)) /\
  save_calls (events run) = [] /\
  write_calls (events run) = [] /\
  exists lock released,
    In (EvAcquire ctx "get-token" (lock, None)) (events run) /\
    release_calls (events run) = [lock] /\
    final (events run) = Some (EvRelease lock released).
Proof.
  intros H; paths decode; find_event H;
    injection H as -> -> -> ->; try discriminate.
  all: cbn; repeat split; auto;
    eexists; eexists; cbn; repeat split; eauto 20.
Qed.

(** C10. When the delegate succeeds and reports that the token it returns
    is an already valid one, but that token does not decode, [Do] returns
    the decoding error wrapped as "you got an invalid token" and the sink
    is never written (nor is the cache). *)
Theorem reused_token_is_decoded_too ctx' input out e :
  In (EvAuthenticate ctx' input (Some out, None)) (events run) ->
  authentication.AlreadyHasValidIDToken out = true ->
  snd (decode (authentication.TokenSet out)) = Some e ->
  value run = Returned (Some (xerrors.Errorf "you got an invalid token: %w" e)) /\
  write_calls (events run) = [] /\
  save_calls (events run) = [].
Proof.
  intros H Hreuse Hdec; paths decode; find_event H;
    injection H as -> -> <-; cbn in Hreuse, Hdec; try discriminate Hreuse.
  all: match goal with
       | E : decode _ = _ |- _ => rewrite E in Hdec; cbn in Hdec
       end;
    try discriminate Hdec.
  all: injection Hdec as ->; cbn; auto.
Qed.

(** C1, amended. When the delegate succeeds and the token set it returns
    decodes, [Save] is called exactly once, with the cache directory, the
    derived key and that token set, if the delegate reported a fresh token
    ([AlreadyHasValidIDToken] false), and is not called at all if it
    reported reuse. *)
Theorem save_iff_fresh_when_token_decodes ctx' input out :
  In (EvAuthenticate ctx' input (Some out, None)) (events run) ->
  snd (decode (authentication.TokenSet out)) = None ->
  save_calls (events run) =
    if authentication.AlreadyHasValidIDToken out then []
    else [(TokenCacheDir in_, tokenCacheKey in_, authentication.TokenSet out)].
Proof.
  intros H Hdec; paths decode; find_event H;
    injection H as -> -> <-; cbn in Hdec |- *.
  all: match goal with
       | E : decode _ = _ |- _ => rewrite E in Hdec; cbn in Hdec
       end;
    try discriminate Hdec; reflexivity.
Qed.

(** C3, amended. The calls of an invocation come in the order of the code:
    lock acquisition, cache lookup (with the key derived just before),
    authentication, token decoding, cache save (when fresh), sink write,
    and the deferred lock release last; no step is taken twice. *)
Theorem steps_in_code_order :
  in_code_order (steps (events run)).
Proof.
  paths decode; cbn; unfold in_code_order; repeat constructor; cbn; lia.
Qed.



(** X12. An error returned by [Do] is either the error of
    [Mutex.Acquire], returned as it is, or the error of the authentication,
    decoding, cache-save or sink-write stage wrapped under that stage's own
    message; the four messages differ, so the message tells the stage, and
    a cache-save error cannot be taken for an authentication error. *)
Theorem returned_error_is_wrapped_past_acquisition e :
  value run = Returned (Some e) ->
  (exists lock, In (EvAcquire ctx "get-token" (lock, Some e)) (events run)) \/
  (exists stage cause,
     e = xerrors.Errorf (stage_message stage ++ ": %w")%string cause /\
     e = wrapError (stage_message stage) cause /\
     failed_at stage cause (events run) /\
     forall stage' cause',
       e = wrapError (stage_message stage') cause' -> stage' = stage /\ cause' = cause).
Proof.
  intros H; paths decode; cbn in H; try discriminate H; injection H as <-.
  all: first
    [ solve [left; eexists; cbn; eauto 20]
    | right; exists AuthenticationStage; eexists;
        split; [reflexivity | split; [reflexivity | split; [cbn; eauto 25 | ]]]
    | right; exists DecodeStage; eexists;
        split; [reflexivity | split; [reflexivity | split; [cbn; eauto 25 | ]]]
    | right; exists CacheSaveStage; eexists;
        split; [reflexivity | split; [reflexivity | split; [cbn; eauto 25 | ]]]
    | right; exists SinkWriteStage; eexists;
        split; [reflexivity | split; [reflexivity | split; [cbn; eauto 25 | ]]] ].
  all: intros stage' cause' Heq; injection Heq as Hm ->;
    split; [ | reflexivity]; symmetry; apply stage_message_inj; exact Hm.
Qed.

End GetTokenFacts.

(* ------------------------------------------------------------------ *)
(** ** Errors of the cache lookup *)

(** Replace a run and the run with the lenient cache by each pair of
    results they can have. *)
Ltac lenient_paths decode :=
  match goal with
  | |- context [Do ?d (lenient.without_lookup_errors ?u) ?c ?i ?w] =>
      let r := fresh "r" in
      let r' := fresh "r'" in
      let Hr := fresh "Hr" in
      let Hr' := fresh "Hr'" in
      remember (Do d (lenient.without_lookup_errors u) c i w) as r' eqn:Hr' in *;
      remember (Do d u c i w) as r eqn:Hr in *;
      revert Hr Hr'; unfold_Do; unfold lenient.without_lookup_errors;
      cbn [Authentication TokenCacheRepository Writer Mutex Logger
           tokencache.FindByKey tokencache.Save];
      repeat split_call decode;
      intros -> ->; cbn [value events world] in *
  end.

Section LookupErrors.
Variable W : Type.
Variable decode : oidc.TokenSet -> jwt.Claims * option error.
Variable u : GetToken W.
Variable ctx : context.Context.
Variable in_ : Input.
Variable w : W.

Local Notation "'run'" := (Do decode u ctx in_ w).
Local Notation "'lenient_run'" :=
  (Do decode (lenient.without_lookup_errors u) ctx in_ w).


End LookupErrors.



(* ------------------------------------------------------------------ *)
(** ** Runs that show the facts at work *)

Section Witnesses.
Import scripted.

(** The lock is busy: the invocation ends after the acquisition. *)
Lemma acquire_error_stops_everything_at_lockBusyRun :
  In (EvAcquire context.TODO "get-token"
        (None, Some (errorString "lock is held by another process")))
     (events (run lockBusyRun leastOptions)) /\
  (value (run lockBusyRun leastOptions)
     = Returned (Some (errorString "lock is held by another process")) /\
   events (run lockBusyRun leastOptions) =
     [EvInfof 1 "WARNING: log may contain your secrets such as token or password" [];
      EvAcquire context.TODO "get-token"
        (None, Some (errorString "lock is held by another process"))] /\
   find_calls (events (run lockBusyRun leastOptions)) = [] /\
   authenticate_calls (events (run lockBusyRun leastOptions)) = [] /\
   save_calls (events (run lockBusyRun leastOptions)) = [] /\
   write_calls (events (run lockBusyRun leastOptions)) = [] /\
   release_calls (events (run lockBusyRun leastOptions)) = []).
Proof.
  split.
  - vm_compute. tauto.
  - apply (@acquire_error_stops_everything nat decode (getToken lockBusyRun)
             context.TODO leastOptions 0 context.TODO "get-token").
    vm_compute. tauto.
Defined.

(** The tests' [AuthenticationError] case. *)
Lemma authentication_error_at_authenticationErrorRun :
  In (EvAuthenticate context.TODO (authenticationInput leastOptions None)
        (None, Some (errorString "authentication error")))
     (events (run authenticationErrorRun leastOptions)) /\
  (value (run authenticationErrorRun leastOptions)
     = Returned (Some (xerrors.Errorf "authentication error: %w"
                         (errorString "authentication error"))) /\
   save_calls (events (run authenticationErrorRun leastOptions)) = [] /\
   write_calls (events (run authenticationErrorRun leastOptions)) = [] /\
   exists lock released,
     In (EvAcquire context.TODO "get-token" (lock, None))
        (events (run authenticationErrorRun leastOptions)) /\
     release_calls (events (run authenticationErrorRun leastOptions)) = [lock] /\
     final (events (run authenticationErrorRun leastOptions))
       = Some (EvRelease lock released)).
Proof.
  split.
  - vm_compute. tauto.
  - apply (@authentication_error_wrapped_and_lock_released nat decode
             (getToken authenticationErrorRun) context.TODO leastOptions 0
             context.TODO (authenticationInput leastOptions None) None).
    vm_compute. tauto.
Defined.

(** A reused token that does not decode. *)
Lemma reused_token_is_decoded_too_at_reuseMalformedRun :
  In (EvAuthenticate context.TODO
        (authenticationInput leastOptions (Some malformedTokenSet))
        (Some {| authentication.AlreadyHasValidIDToken := true;
                 authentication.TokenSet := malformedTokenSet |}, None))
     (events (run reuseMalformedRun leastOptions)) /\
  snd (decode malformedTokenSet)
    = Some (errorString "token contains an invalid number of segments") /\
  (value (run reuseMalformedRun leastOptions)
     = Returned (Some (xerrors.Errorf "you got an invalid token: %w"
                         (errorString "token contains an invalid number of segments"))) /\
   write_calls (events (run reuseMalformedRun leastOptions)) = [] /\
   save_calls (events (run reuseMalformedRun leastOptions)) = []).
Proof.
  split; [vm_compute; tauto | split; [reflexivity | ]].
  apply (@reused_token_is_decoded_too nat decode (getToken reuseMalformedRun)
           context.TODO leastOptions 0 context.TODO
           (authenticationInput leastOptions (Some malformedTokenSet))
           {| authentication.AlreadyHasValidIDToken := true;
              authentication.TokenSet := malformedTokenSet |}).
  - vm_compute. tauto.
  - reflexivity.
  - reflexivity.
Defined.

(** The tests' [LeastOptions] case: one save, under the derived key. *)
Lemma save_iff_fresh_at_freshRun :
  In (EvAuthenticate context.TODO (authenticationInput leastOptions None)
        (Some {| authentication.AlreadyHasValidIDToken := false;
                 authentication.TokenSet := issuedTokenSet |}, None))
     (events (run freshRun leastOptions)) /\
  snd (decode issuedTokenSet) = None /\
  save_calls (events (run freshRun leastOptions))
    = [(TokenCacheDir leastOptions, tokenCacheKey leastOptions, issuedTokenSet)].
Proof.
  split; [vm_compute; tauto | split; [reflexivity | ]].
  apply (@save_iff_fresh_when_token_decodes nat decode (getToken freshRun)
           context.TODO leastOptions 0 context.TODO
           (authenticationInput leastOptions None)
           {| authentication.AlreadyHasValidIDToken := false;
              authentication.TokenSet := issuedTokenSet |}).
  - vm_compute. tauto.
  - reflexivity.
Defined.


(** The cache cannot be written: the error names the cache-save stage. *)
Lemma returned_error_at_saveErrorRun :
  value (run saveErrorRun leastOptions)
    = Returned (Some (wrapError "could not write the token cache"
                        (errorString "permission denied"))) /\
  ((exists lock,
      In (EvAcquire context.TODO "get-token"
            (lock, Some (wrapError "could not write the token cache"
                           (errorString "permission denied"))))
         (events (run saveErrorRun leastOptions))) \/
   (exists stage cause,
      wrapError "could not write the token cache" (errorString "permission denied")
        = xerrors.Errorf (stage_message stage ++ ": %w")%string cause /\
      wrapError "could not write the token cache" (errorString "permission denied")
        = wrapError (stage_message stage) cause /\
      failed_at stage cause (events (run saveErrorRun leastOptions)) /\
      forall stage' cause',
        wrapError "could not write the token cache" (errorString "permission denied")
          = wrapError (stage_message stage') cause' ->
        stage' = stage /\ cause' = cause)).
Proof.
  split.
  - reflexivity.
  - apply (@returned_error_is_wrapped_past_acquisition nat decode
             (getToken saveErrorRun) context.TODO leastOptions 0).
    reflexivity.
Defined.

End Witnesses.

(* ------------------------------------------------------------------ *)
(** ** Where the code departs from the sentences *)

Section Departures.
Import scripted.

(** C1 as stated fails: the delegate succeeds with a fresh token, the
    token does not decode, and [Do] returns before [Save] is called. *)
Lemma fresh_token_not_saved_when_malformed :
  save_calls (events (run freshMalformedRun leastOptions)) = [] /\
  ~ stated.save_iff_fresh decode (getToken freshMalformedRun).
Proof.
  split; [reflexivity | ].
  intros claim.
  specialize (claim context.TODO leastOptions 0 context.TODO
                (authenticationInput leastOptions None)
                {| authentication.AlreadyHasValidIDToken := false;
                   authentication.TokenSet := malformedTokenSet |}).
  assert (Hin : In (EvAuthenticate context.TODO (authenticationInput leastOptions None)
                      (Some {| authentication.AlreadyHasValidIDToken := false;
                               authentication.TokenSet := malformedTokenSet |}, None))
                   (events (Do decode (getToken freshMalformedRun)
                               context.TODO leastOptions 0)))
    by (vm_compute; tauto).
  apply claim in Hin. vm_compute in Hin. discriminate Hin.
Qed.

(** C3 as stated fails: in the run of the tests' first case the token is
    decoded before the cache is saved, and the lock is released after the
    sink write, not before the decoding. *)
Lemma test_run_departs_from_spec_order :
  steps (events (run freshRun leastOptions))
    = [Acquiring; Finding; Authenticating; Decoding; Saving; Writing; Releasing] /\
  ~ stated.steps_in_spec_order decode (getToken freshRun).
Proof.
  split; [reflexivity | ].
  intros claim. specialize (claim context.TODO leastOptions 0).
  change (Do decode (getToken freshRun) context.TODO leastOptions 0)
    with (run freshRun leastOptions) in claim.
  replace (steps (events (run freshRun leastOptions)))
    with [Acquiring; Finding; Authenticating; Decoding; Saving; Writing; Releasing]
    in claim by reflexivity.
  unfold in_spec_order in claim.
  do 3 (apply StronglySorted_inv in claim; destruct claim as [claim _]).
  apply StronglySorted_inv in claim. destruct claim as [_ Hdecoding].
  apply Forall_inv in Hdecoding. cbn in Hdecoding. lia.
Qed.

(** C6. Every fatal error [Do] returns should come wrapped under the
    message of its stage, as those of the four later stages do; the error
    of a failed lock acquisition does not: at a mutex that is busy it
    comes back as [Mutex.Acquire] made it, under no message of [Do]. *)
Lemma acquire_error_comes_back_unwrapped :
  value (run lockBusyRun leastOptions)
    = Returned (Some (errorString "lock is held by another process")) /\
  ~ stated.every_error_wrapped decode (getToken lockBusyRun).
Proof.
  split; [reflexivity | ].
  intros claim.
  destruct (claim context.TODO leastOptions 0
              (errorString "lock is held by another process") eq_refl)
    as (msg & cause & Heq).
  discriminate Heq.
Qed.

End Departures.

(* ------------------------------------------------------------------ *)
(** ** The derived key *)

Section KeyDerivation.
Import scripted.

(** The key of the tests' [FullOptions] case. *)
Example FullOptions_key :
  tokenCacheKey
    {| IssuerURL := "https://accounts.google.com";
       ClientID := "YOUR_CLIENT_ID";
       ClientSecret := "YOUR_CLIENT_SECRET";
       ExtraScopes := [];
       TokenCacheDir := "/path/to/token-cache";
       GrantOptionSet :=
         {| authentication.ROPCOption :=
              Some {| ropc.Username := "YOUR_USERNAME"; ropc.Password := "" |} |};
       TLSClientConfig :=
         {| tlsclientconfig.CACertFilename := ["/path/to/cert"];
            tlsclientconfig.CACertData := ["BASE64ENCODED"];
            tlsclientconfig.SkipTLSVerify := true |} |}
  = {| tokencache.IssuerURL := "https://accounts.google.com";
       tokencache.ClientID := "YOUR_CLIENT_ID";
       tokencache.ClientSecret := "YOUR_CLIENT_SECRET";
       tokencache.Username := "YOUR_USERNAME";
       tokencache.ExtraScopes := [];
       tokencache.CACertFilename := "/path/to/cert";
       tokencache.CACertData := "BASE64ENCODED";
       tokencache.SkipTLSVerify := true |}.
Proof. reflexivity. Qed.

(** *** Joining with commas *)

Lemma append_empty_right (s : string) : (s ++ "")%string = s.
Proof.
  induction s as [|c s IH]; cbn; [reflexivity | now rewrite IH].
Qed.

Lemma Join_cons (e : string) (rest : list string) (sep : string) :
  strings.Join (e :: rest) sep = (e ++ strings.join_rest sep rest)%string.
Proof.
  destruct rest; cbn; [now rewrite append_empty_right | reflexivity].
Qed.

Lemma join_rest_tail_like (rest : list string) :
  names.tail_like (strings.join_rest "," rest).
Proof.
  destruct rest; [left; reflexivity | right; cbn; eauto].
Qed.

(** A comma-free name followed by a tail is read back in one way only. *)
Lemma name_then_tail_unique (s1 : string) :
  forall s2 t1 t2,
    names.has_comma s1 = false -> names.has_comma s2 = false ->
    names.tail_like t1 -> names.tail_like t2 ->
    (s1 ++ t1)%string = (s2 ++ t2)%string -> s1 = s2 /\ t1 = t2.
Proof.
  induction s1 as [|c s1 IH]; intros [|d s2] t1 t2 H1 H2 T1 T2 Heq; cbn in *.
  - auto.
  - destruct T1 as [-> | [t' ->]]; [discriminate Heq | ].
    injection Heq as <- _. cbn in H2. discriminate H2.
  - destruct T2 as [-> | [t' ->]]; [discriminate Heq | ].
    injection Heq as -> _. cbn in H1. discriminate H1.
  - injection Heq as -> Heq.
    apply orb_false_iff in H1 as [_ H1]. apply orb_false_iff in H2 as [_ H2].
    destruct (IH s2 t1 t2 H1 H2 T1 T2 Heq) as [-> ->]. auto.
Qed.

Lemma join_rest_injective (r1 : list string) :
  forall r2,
    Forall names.plain r1 -> Forall names.plain r2 ->
    strings.join_rest "," r1 = strings.join_rest "," r2 -> r1 = r2.
Proof.
  induction r1 as [|s1 r1 IH]; intros [|s2 r2] P1 P2 Heq; cbn in Heq.
  - reflexivity.
  - discriminate Heq.
  - discriminate Heq.
  - injection Heq as Heq.
    apply Forall_cons_iff in P1 as [[_ C1] P1].
    apply Forall_cons_iff in P2 as [[_ C2] P2].
    destruct (@name_then_tail_unique s1 s2 _ _ C1 C2
                (join_rest_tail_like r1) (join_rest_tail_like r2) Heq) as [-> Hrest].
    now rewrite (IH r2 P1 P2 Hrest).
Qed.

(** Lists of plain names are told apart by their comma-joined form. *)
Lemma Join_injective_on_plain_names (l1 l2 : list string) :
  Forall names.plain l1 -> Forall names.plain l2 ->
  strings.Join l1 "," = strings.Join l2 "," -> l1 = l2.
Proof.
  destruct l1 as [|e1 r1], l2 as [|e2 r2]; intros P1 P2 Heq.
  - reflexivity.
  - rewrite Join_cons in Heq. apply Forall_cons_iff in P2 as [[N2 _] _].
    destruct e2; [now elim N2 | discriminate Heq].
  - rewrite Join_cons in Heq. apply Forall_cons_iff in P1 as [[N1 _] _].
    destruct e1; [now elim N1 | discriminate Heq].
  - rewrite !Join_cons in Heq.
    apply Forall_cons_iff in P1 as [[_ C1] P1].
    apply Forall_cons_iff in P2 as [[_ C2] P2].
    destruct (@name_then_tail_unique e1 e2 _ _ C1 C2
                (join_rest_tail_like r1) (join_rest_tail_like r2) Heq) as [-> Hrest].
    now rewrite (@join_rest_injective r1 r2 P1 P2 Hrest).
Qed.

(** An empty name is lost in the joining, as a comma is. *)
Example empty_name_collides :
  strings.Join [""] "," = strings.Join [] ",".
Proof. reflexivity. Qed.

(** *** The key *)

(** Two keys are equal exactly when the eight fields are. *)
Lemma tokenCacheKey_equal_iff (a b : Input) :
  tokenCacheKey a = tokenCacheKey b <->
  IssuerURL a = IssuerURL b /\
  ClientID a = ClientID b /\
  ClientSecret a = ClientSecret b /\
  tokencache.Username (tokenCacheKey a) = tokencache.Username (tokenCacheKey b) /\
  ExtraScopes a = ExtraScopes b /\
  strings.Join (tlsclientconfig.CACertFilename (TLSClientConfig a)) ","
    = strings.Join (tlsclientconfig.CACertFilename (TLSClientConfig b)) "," /\
  strings.Join (tlsclientconfig.CACertData (TLSClientConfig a)) ","
    = strings.Join (tlsclientconfig.CACertData (TLSClientConfig b)) "," /\
  tlsclientconfig.SkipTLSVerify (TLSClientConfig a)
    = tlsclientconfig.SkipTLSVerify (TLSClientConfig b).
Proof.
  unfold tokenCacheKey; cbn. split.
  - intros Hkey. injection Hkey. auto 10.
  - intros (-> & -> & -> & -> & -> & -> & -> & ->). reflexivity.
Qed.

(** The token cache directory has no part in the key. *)
Lemma tokenCacheKey_ignores_cache_dir (a : Input) (dir : string) :
  tokenCacheKey
    {| IssuerURL := IssuerURL a; ClientID := ClientID a;
       ClientSecret := ClientSecret a; ExtraScopes := ExtraScopes a;
       TokenCacheDir := dir; GrantOptionSet := GrantOptionSet a;
       TLSClientConfig := TLSClientConfig a |}
  = tokenCacheKey a.
Proof. reflexivity. Qed.


(** The same for the extra scopes, which go into the key as they come. *)
Example swapped_scopes_change_the_key :
  Permutation ["email"; "profile"] ["profile"; "email"] /\
  tokenCacheKey (withExtraScopes ["email"; "profile"])
    <> tokenCacheKey (withExtraScopes ["profile"; "email"]).
Proof.
  split; [apply perm_swap | discriminate].
Qed.

(** Of two inputs that are equal but for the order of the three lists,
    the keys are equal if and only if the extra scopes are the same list
    and the joined CA file names and CA data are the same strings. *)
Lemma reordered_inputs_share_key_iff_joins_agree (a b : Input) :
  stated.reordered a b ->
  (tokenCacheKey a = tokenCacheKey b <->
   ExtraScopes a = ExtraScopes b /\
   strings.Join (tlsclientconfig.CACertFilename (TLSClientConfig a)) ","
     = strings.Join (tlsclientconfig.CACertFilename (TLSClientConfig b)) "," /\
   strings.Join (tlsclientconfig.CACertData (TLSClientConfig a)) ","
     = strings.Join (tlsclientconfig.CACertData (TLSClientConfig b)) ",").
Proof.
  intros (Hissuer & Hid & Hsecret & _ & Hgrant & Hskip & _).
  rewrite tokenCacheKey_equal_iff. cbn. rewrite Hgrant. tauto.
Qed.


(** Names with commas can hide a reordering: these two lists are one the
    other in another order, and join to the same string. *)
Example reordering_hidden_by_commas :
  Permutation ["a,a"; "a"] ["a"; "a,a"] /\
  strings.Join ["a,a"; "a"] "," = strings.Join ["a"; "a,a"] ",".
Proof.
  split; [apply perm_swap | reflexivity].
Qed.




(** The lookups of an invocation: none when the lock is not acquired, one
    under the cache directory and the derived key otherwise. *)
Lemma find_calls_of_Do W (decode' : oidc.TokenSet -> jwt.Claims * option error)
    (u : GetToken W) ctx in_ w :
  find_calls (events (Do decode' u ctx in_ w)) =
    match
      snd (fst (mutex.Acquire (Mutex u) ctx "get-token"
                  (logger.V_Infof (Logger u) 1
                     "WARNING: log may contain your secrets such as token or password"
                     [] w)))
    with
    | Some _ => []
    | None => [(TokenCacheDir in_, tokenCacheKey in_)]
    end.
Proof.
  paths decode'; reflexivity.
Qed.

(** C9. The key does not tell a CA file name containing a comma from two
    file names: the inputs with file names ["a,b"] and ["a"; "b"], equal
    otherwise, are different inputs with the same key, and every
    invocation looks the cache up under the same directory and key for the
    one as for the other. *)
Theorem comma_in_file_name_collides :
  withCACertFilename ["a,b"] <> withCACertFilename ["a"; "b"] /\
  tokenCacheKey (withCACertFilename ["a,b"])
    = tokenCacheKey (withCACertFilename ["a"; "b"]) /\
  forall W (decode' : oidc.TokenSet -> jwt.Claims * option error)
         (u : GetToken W) ctx w,
    find_calls (events (Do decode' u ctx (withCACertFilename ["a,b"]) w))
    = find_calls (events (Do decode' u ctx (withCACertFilename ["a"; "b"]) w)).
Proof.
  split; [discriminate | split; [reflexivity | ]].
  intros. now rewrite !find_calls_of_Do.
Qed.

End KeyDerivation.

(* ------------------------------------------------------------------ *)
(** ** Configuration mode *)

(** Split on what the next call of [Standalone.Do] returns. *)
Ltac split_standalone_call decode :=
  match goal with
  | |- context [kubeconfig.GetCurrentAuthProvider ?k ?f ?c ?n ?x] =>
      destruct (kubeconfig.GetCurrentAuthProvider k f c n x) as [[?|?] ?] eqn:?
  | |- context [authentication.Do ?m ?c ?i ?x] =>
      destruct (authentication.Do m c i x) as [[[[[] ?]|] [?|]] ?] eqn:?
  | |- context [decode ?ts] =>
      destruct (decode ts) as [? [?|]] eqn:?
  | |- context [kubeconfig.UpdateAuthProvider ?k ?e ?x] =>
      destruct (kubeconfig.UpdateAuthProvider k e x) as [[?|] ?] eqn:?
  end;
  cbn [value events world app
       authentication.AlreadyHasValidIDToken authentication.TokenSet].

Ltac standalone_paths decode :=
  match goal with
  | |- context [standalone.Do ?d ?u ?c ?i ?w] =>
      let r := fresh "r" in
      let Hr := fresh "Hr" in
      remember (standalone.Do d u c i w) as r eqn:Hr in *;
      revert Hr; unfold standalone.Do, bind, call, ret;
      repeat split_standalone_call decode;
      intros ->; cbn [value events world] in *
  end.

Section StandaloneFacts.
Variable W : Type.
Variable decode : oidc.TokenSet -> jwt.Claims * option error.
Variable u : standalone.Standalone W.
Variable ctx : context.Context.
Variable in_ : standalone.Input.
Variable w : W.

Local Notation "'run'" := (standalone.Do decode u ctx in_ w).

(** The tests' [FullOptions] case: the entry read comes back with the two
    tokens of the delegate and nothing else changed. *)
Example Standalone_FullOptions_run :
  standalone.update_calls
    (events (standalone.Do scripted.decode
               (scripted.standaloneWith
                  (Some {| authentication.AlreadyHasValidIDToken := false;
                           authentication.TokenSet := scripted.issuedTokenSet |}, None))
               context.TODO scripted.fullOptions 0))
  = [ {| kubeconfig.LocationOfOrigin := "/path/to/kubeconfig";
         kubeconfig.UserName := "theUser";
         kubeconfig.IDPIssuerURL := "https://accounts.google.com";
         kubeconfig.ClientID := "YOUR_CLIENT_ID";
         kubeconfig.ClientSecret := "YOUR_CLIENT_SECRET";
         kubeconfig.IDPCertificateAuthority := "/path/to/cert2";
         kubeconfig.IDPCertificateAuthorityData := "BASE64ENCODED2";
         kubeconfig.IDToken := "eyJhbGciOi.eyJpc3MiOi.c2ln";
         kubeconfig.RefreshToken := "YOUR_REFRESH_TOKEN" |} ].
Proof. reflexivity. Qed.

(** C8, amended. In configuration mode, when the entry has been read and
    the delegate succeeds: if it reports a fresh token and that token
    decodes, the entry is written back once, with the ID token and the
    refresh token of the delegate and with every other field (origin, user
    name, issuer URL, client ID, client secret, CA file, CA data) as read;
    if it reports reuse, or if the token does not decode, the entry is not
    written back. *)
Theorem entry_written_back_when_fresh_token_decodes
    filename contextName userName entry ctx' input out :
  In (standalone.EvGetCurrentAuthProvider filename contextName userName (inl entry))
     (events run) ->
  In (standalone.EvAuthenticate ctx' input (Some out, None)) (events run) ->
  (authentication.AlreadyHasValidIDToken out = false ->
   snd (decode (authentication.TokenSet out)) = None ->
   exists written,
     standalone.update_calls (events run) = [written] /\
     standalone.same_but_tokens written entry /\
     kubeconfig.IDToken written = oidc.IDToken (authentication.TokenSet out) /\
     kubeconfig.RefreshToken written = oidc.RefreshToken (authentication.TokenSet out)) /\
  (authentication.AlreadyHasValidIDToken out = true ->
   standalone.update_calls (events run) = []) /\
  (snd (decode (authentication.TokenSet out)) <> None ->
   standalone.update_calls (events run) = []).
Proof.
  intros Hread Hauth; split; [ | split]; intros;
    standalone_paths decode;
    find_event Hread; injection Hread as -> -> -> <-;
    find_event Hauth; injection Hauth as -> -> <-; cbn in *.
  all: try reflexivity; try discriminate.
  all: try match goal with
           | E : decode ?ts = _, H : context [decode ?ts] |- _ =>
               rewrite E in H; cbn in H; congruence
           end.
  all: eexists; split; [reflexivity | ];
    unfold standalone.same_but_tokens; cbn; auto 10.
Qed.

End StandaloneFacts.

(** The standalone tests' [FullOptions] case. *)
Lemma entry_written_back_at_FullOptions :
  In (standalone.EvGetCurrentAuthProvider "/path/to/kubeconfig" "theContext" "theUser"
        (inl scripted.currentAuthProvider))
     (events (standalone.Do scripted.decode
                (scripted.standaloneWith
                   (Some {| authentication.AlreadyHasValidIDToken := false;
                            authentication.TokenSet := scripted.issuedTokenSet |}, None))
                context.TODO scripted.fullOptions 0)) /\
  In (standalone.EvAuthenticate context.TODO
        (standalone.authenticationInput scripted.fullOptions scripted.currentAuthProvider)
        (Some {| authentication.AlreadyHasValidIDToken := false;
                 authentication.TokenSet := scripted.issuedTokenSet |}, None))
     (events (standalone.Do scripted.decode
                (scripted.standaloneWith
                   (Some {| authentication.AlreadyHasValidIDToken := false;
                            authentication.TokenSet := scripted.issuedTokenSet |}, None))
                context.TODO scripted.fullOptions 0)) /\
  snd (scripted.decode scripted.issuedTokenSet) = None /\
  exists written,
    standalone.update_calls
      (events (standalone.Do scripted.decode
                 (scripted.standaloneWith
                    (Some {| authentication.AlreadyHasValidIDToken := false;
                             authentication.TokenSet := scripted.issuedTokenSet |}, None))
                 context.TODO scripted.fullOptions 0))
      = [written] /\
    standalone.same_but_tokens written scripted.currentAuthProvider /\
    kubeconfig.IDToken written = oidc.IDToken scripted.issuedTokenSet /\
    kubeconfig.RefreshToken written = oidc.RefreshToken scripted.issuedTokenSet.
Proof.
  split; [vm_compute; tauto | split; [vm_compute; tauto | split; [reflexivity | ]]].
  refine (proj1
    (@entry_written_back_when_fresh_token_decodes nat scripted.decode
       (scripted.standaloneWith
          (Some {| authentication.AlreadyHasValidIDToken := false;
                   authentication.TokenSet := scripted.issuedTokenSet |}, None))
       context.TODO scripted.fullOptions 0
       "/path/to/kubeconfig" "theContext" "theUser" scripted.currentAuthProvider
       context.TODO
       (standalone.authenticationInput scripted.fullOptions scripted.currentAuthProvider)
       {| authentication.AlreadyHasValidIDToken := false;
          authentication.TokenSet := scripted.issuedTokenSet |}
       _ _) eq_refl eq_refl).
  - vm_compute. tauto.
  - vm_compute. tauto.
Defined.

(** C8 as stated fails on the model: the delegate reports a fresh token,
    the token does not decode, and the entry is not written back. *)
Lemma fresh_entry_not_written_when_malformed :
  standalone.update_calls
    (events (standalone.Do scripted.decode
               (scripted.standaloneWith
                  (Some {| authentication.AlreadyHasValidIDToken := false;
                           authentication.TokenSet := scripted.malformedTokenSet |}, None))
               context.TODO scripted.fullOptions 0)) = [] /\
  ~ stated.fresh_entry_written_back scripted.decode
      (scripted.standaloneWith
         (Some {| authentication.AlreadyHasValidIDToken := false;
                  authentication.TokenSet := scripted.malformedTokenSet |}, None)).
Proof.
  split; [reflexivity | ].
  intros claim.
  destruct (claim context.TODO scripted.fullOptions 0
              "/path/to/kubeconfig" "theContext" "theUser" scripted.currentAuthProvider
              context.TODO
              (standalone.authenticationInput scripted.fullOptions
                 scripted.currentAuthProvider)
              {| authentication.AlreadyHasValidIDToken := false;
                 authentication.TokenSet := scripted.malformedTokenSet |})
    as (written & Hcalls & _).
  - vm_compute. tauto.
  - vm_compute. tauto.
  - reflexivity.
  - vm_compute in Hcalls. discriminate Hcalls.
Qed.

(* ------------------------------------------------------------------ *)
(** ** Further facts about [GetToken.Do] *)

Section MoreGetTokenFacts.
Variable W : Type.
Variable decode : oidc.TokenSet -> jwt.Claims * option error.
Variable u : GetToken W.
Variable ctx : context.Context.
Variable in_ : Input.
Variable w : W.

Local Notation "'run'" := (Do decode u ctx in_ w).

(** X1. When [Save] returns an error, [Do] returns it wrapped as "could
    not write the token cache"; the save was the one save of the run, made
    under the cache directory and the derived key with a token set the
    delegate reported as fresh; the sink is not written, and the lock is
    released as the last call. *)
Theorem save_error_is_fatal_and_skips_the_sink dir key ts e :
  In (EvSave dir key ts (Some e)) (events run) ->
  value run = Returned (Some (xerrors.Errorf "could not write the token cache: %w" e)) /\
  save_calls (events run) = [(TokenCacheDir in_, tokenCacheKey in_, ts)] /\
  (exists input,
     In (EvAuthenticate ctx input
           (Some {| authentication.AlreadyHasValidIDToken := false;
                    authentication.TokenSet := ts |}, None))
        (events run)) /\
  write_calls (events run) = [] /\
  exists lock released,
    release_calls (events run) = [lock] /\
    final (events run) = Some (EvRelease lock released).
Proof.
  intros H; paths decode; find_event H; injection H as -> -> <- ->.
  all: cbn; repeat split; eauto 20.
Qed.

(** X2. When the writer returns an error, [Do] returns it wrapped as
    "could not write the token to client-go", after the lock is released;
    by then a fresh token has been saved to the cache without error, and a
    reused one has not been saved again. *)
Theorem write_error_is_fatal_after_the_save out e :
  In (EvWrite out (Some e)) (events run) ->
  value run
    = Returned (Some (xerrors.Errorf "could not write the token to client-go: %w" e)) /\
  (exists input o,
     In (EvAuthenticate ctx input (Some o, None)) (events run) /\
     credentialpluginwriter.Token out = oidc.IDToken (authentication.TokenSet o) /\
     if authentication.AlreadyHasValidIDToken o
     then save_calls (events run) = []
     else In (EvSave (TokenCacheDir in_) (tokenCacheKey in_)
                (authentication.TokenSet o) None) (events run)) /\
  exists lock released,
    release_calls (events run) = [lock] /\
    final (events run) = Some (EvRelease lock released).
Proof.
  intros H; paths decode; find_event H; injection H as <- ->.
  all: cbn; split; [reflexivity | split; [ | eauto]].
  all: eexists; eexists; split; [cbn; eauto 20 | split; [reflexivity | cbn; eauto 20]].
Qed.

(** X3. [Do] returns nil exactly when the writer was called and returned
    nil: every other way out is an error or a panic, and no error after a
    successful write (that of the release) is reported. *)
Theorem returns_nil_iff_sink_written :
  value run = Returned None <->
  exists out, In (EvWrite out None) (events run).
Proof.
  paths decode; cbn; split; intros H; try discriminate H; try reflexivity.
  all: try (eexists; eauto 20; fail).
  all: destruct H as [out H]; find_event H.
Qed.

(** X4. Whatever is handed to the writer is the ID token of the token set
    the delegate returned, with the expiry that decoding this token set
    gave; the writer is called once, after a successful decoding and, for
    a fresh token, after a successful save. *)
Theorem sink_receives_the_decoded_token out res :
  In (EvWrite out res) (events run) ->
  write_calls (events run) = [out] /\
  exists input o claims,
    In (EvAuthenticate ctx input (Some o, None)) (events run) /\
    decode (authentication.TokenSet o) = (claims, None) /\
    out = {| credentialpluginwriter.Token := oidc.IDToken (authentication.TokenSet o);
             credentialpluginwriter.Expiry := jwt.Expiry claims |} /\
    (authentication.AlreadyHasValidIDToken o = false ->
     In (EvSave (TokenCacheDir in_) (tokenCacheKey in_) (authentication.TokenSet o) None)
        (events run)).
Proof.
  intros H; paths decode; find_event H; injection H as <- <-.
  all: split; [reflexivity | ].
  all: eexists; eexists; eexists; split; [cbn; eauto 20 | ].
  all: cbn; split; [eassumption | split; [reflexivity | ]].
  all: intros Hfresh; try discriminate Hfresh; cbn; eauto 20.
Qed.

(** X5. Once [Acquire] has returned without error, whatever happens next
    (success, an error of any stage, a panic), [Release] is called exactly
    once, with the lock [Acquire] returned, and it is the last call of the
    run; the lock was asked for under the name "get-token" with the
    caller's context. *)
Theorem lock_is_released_on_every_way_out ctx' name lock :
  In (EvAcquire ctx' name (lock, None)) (events run) ->
  ctx' = ctx /\ name = "get-token" /\
  release_calls (events run) = [lock] /\
  exists released, final (events run) = Some (EvRelease lock released).
Proof.
  intros H; paths decode; find_event H; injection H as <- <- <-.
  all: cbn; repeat split; eauto.
Qed.

(** X7. The cache is looked up once, under the cache directory of the
    input and the derived key, and the delegate is called once, with an
    input whose [CachedTokenSet] is the token set the lookup returned,
    with an error or without, and whose provider (issuer URL, client ID,
    client secret, extra scopes), grant options and TLS configuration are
    those of the input of [Do]: a cache hit never stands in for that call,
    and an error of the lookup does not clear the token set returned with
    it. *)
Theorem lookup_feeds_the_delegate dir key cached err :
  In (EvFindByKey dir key (cached, err)) (events run) ->
  dir = TokenCacheDir in_ /\
  key = tokenCacheKey in_ /\
  find_calls (events run) = [(dir, key)] /\
  exists input,
    authenticate_calls (events run) = [input] /\
    authentication.CachedTokenSet input = cached /\
    oidc.IssuerURL (authentication.Provider input) = IssuerURL in_ /\
    oidc.ClientID (authentication.Provider input) = ClientID in_ /\
    oidc.ClientSecret (authentication.Provider input) = ClientSecret in_ /\
    oidc.ExtraScopes (authentication.Provider input) = ExtraScopes in_ /\
    authentication.GrantOptionSet_ input = GrantOptionSet in_ /\
    authentication.TLSClientConfig input = TLSClientConfig in_.
Proof.
  intros H; paths decode; find_event H; injection H as <- <- <- <-.
  all: repeat (split; [reflexivity | ]).
  all: eexists; split; [reflexivity | ]; cbn; auto 10.
Qed.

(** X8. [Do] panics exactly when the delegate returns a nil output
    together with a nil error. *)
Theorem panics_iff_delegate_returns_nothing :
  value run = Panicked <->
  exists input, In (EvAuthenticate ctx input (None, None)) (events run).
Proof.
  paths decode; cbn; split; intros H; try discriminate H; try reflexivity.
  all: try (eexists; eauto 20; fail).
  all: destruct H as [input H]; find_event H.
Qed.

(** X10. When the delegate, the decoding, the save or the writer fails
    with some cause, the error [Do] returns prints as the message of that
    stage, a colon and the message of the cause, and unwraps to the
    cause. *)
Theorem stage_failure_is_reported_with_its_cause stage cause :
  failed_at stage cause (events run) ->
  exists err,
    value run = Returned (Some err) /\
    xerrors.Error err = (stage_message stage ++ ": " ++ xerrors.Error cause)%string /\
    xerrors.Unwrap err = Some cause.
Proof.
  intros H; destruct stage; cbn [failed_at] in H.
  - destruct H as (c & i & o & H); paths decode; find_event H;
      injection H as <- <- <- <-;
      (eexists; split; [reflexivity | split; reflexivity]).
  - destruct H as (ts & claims & H); paths decode; find_event H;
      injection H as <- <- <-;
      (eexists; split; [reflexivity | split; reflexivity]).
  - destruct H as (d & k & ts & H); paths decode; find_event H;
      injection H as <- <- <- <-;
      (eexists; split; [reflexivity | split; reflexivity]).
  - destruct H as (o & H); paths decode; find_event H;
      injection H as <- <-;
      (eexists; split; [reflexivity | split; reflexivity]).
Qed.

(** X11. A token set that does not decode goes nowhere: whether the
    delegate called it fresh or reused, [Do] returns the decoding error
    wrapped as "you got an invalid token", nothing is saved to the cache,
    nothing is handed to the writer, and the lock is released. *)
Theorem undecodable_token_is_neither_saved_nor_written ts claims e :
  In (EvDecode ts (claims, Some e)) (events run) ->
  value run = Returned (Some (xerrors.Errorf "you got an invalid token: %w" e)) /\
  save_calls (events run) = [] /\
  write_calls (events run) = [] /\
  (exists input reused,
     In (EvAuthenticate ctx input
           (Some {| authentication.AlreadyHasValidIDToken := reused;
                    authentication.TokenSet := ts |}, None))
        (events run)) /\
  exists lock released,
    release_calls (events run) = [lock] /\
    final (events run) = Some (EvRelease lock released).
Proof.
  intros H; paths decode; find_event H; injection H as <- <- <-.
  all: cbn; repeat split; eauto 20.
Qed.

End MoreGetTokenFacts.

Section ReleaseIsBestEffort.
Variable W : Type.
Variable decode : oidc.TokenSet -> jwt.Claims * option error.
Variables u u' : GetToken W.
Variable ctx : context.Context.
Variable in_ : Input.
Variable w : W.

(** X6. What [Release] returns, and what it does to the world, has no
    part in the result: two sets of collaborators that differ in the
    [Release] of their mutex only give the same outcome, the same saves,
    the same writes and the same locks handed back. *)
Theorem release_has_no_part_in_the_result :
  Authentication u = Authentication u' ->
  TokenCacheRepository u = TokenCacheRepository u' ->
  Writer u = Writer u' ->
  Logger u = Logger u' ->
  mutex.Acquire (Mutex u) = mutex.Acquire (Mutex u') ->
  value (Do decode u ctx in_ w) = value (Do decode u' ctx in_ w) /\
  save_calls (events (Do decode u ctx in_ w))
    = save_calls (events (Do decode u' ctx in_ w)) /\
  write_calls (events (Do decode u ctx in_ w))
    = write_calls (events (Do decode u' ctx in_ w)) /\
  release_calls (events (Do decode u ctx in_ w))
    = release_calls (events (Do decode u' ctx in_ w)).
Proof.
  intros Hauth Hcache Hwriter Hlogger Hacquire.
  unfold_Do. rewrite Hauth, Hcache, Hwriter, Hlogger, Hacquire.
  repeat split_call decode.
  all: cbn; auto.
Qed.

End ReleaseIsBestEffort.

Section MoreKeyFacts.
Import scripted.

(** X9. When no CA file name and no CA datum of two inputs is empty or
    holds a comma, equal keys mean equal issuer URL, client ID, client
    secret, extra scopes (in order) and TLS configuration (both lists in
    order, and the skip flag), and equal ROPC user names where both inputs
    have an ROPC option; the cache directory and what else an ROPC option
    carries are not part of the key. *)
Theorem equal_keys_of_plain_inputs (a b : Input) :
  Forall names.plain (tlsclientconfig.CACertFilename (TLSClientConfig a)) ->
  Forall names.plain (tlsclientconfig.CACertFilename (TLSClientConfig b)) ->
  Forall names.plain (tlsclientconfig.CACertData (TLSClientConfig a)) ->
  Forall names.plain (tlsclientconfig.CACertData (TLSClientConfig b)) ->
  tokenCacheKey a = tokenCacheKey b ->
  IssuerURL a = IssuerURL b /\
  ClientID a = ClientID b /\
  ClientSecret a = ClientSecret b /\
  ExtraScopes a = ExtraScopes b /\
  TLSClientConfig a = TLSClientConfig b /\
  forall oa ob,
    authentication.ROPCOption (GrantOptionSet a) = Some oa ->
    authentication.ROPCOption (GrantOptionSet b) = Some ob ->
    ropc.Username oa = ropc.Username ob.
Proof.
  intros Fa Fb Da Db Hkey.
  apply tokenCacheKey_equal_iff in Hkey.
  destruct Hkey as (Hi & Hc & Hs & Hu & Hx & Hf & Hd & Hv).
  apply (Join_injective_on_plain_names Fa Fb) in Hf.
  apply (Join_injective_on_plain_names Da Db) in Hd.
  repeat (split; [assumption | ]).
  split.
  - destruct (TLSClientConfig a), (TLSClientConfig b); cbn in *; congruence.
  - intros oa ob Ha Hb. cbn in Hu. rewrite Ha, Hb in Hu. exact Hu.
Qed.

End MoreKeyFacts.

(* ------------------------------------------------------------------ *)
(** ** Runs that show the further facts at work *)

Section MoreWitnesses.
Import scripted.

(** The cache cannot be written. *)
Lemma save_error_at_saveErrorRun :
  In (EvSave "/path/to/token-cache" (tokenCacheKey leastOptions) issuedTokenSet
        (Some (errorString "permission denied")))
     (events (run saveErrorRun leastOptions)) /\
  (value (run saveErrorRun leastOptions)
     = Returned (Some (xerrors.Errorf "could not write the token cache: %w"
                         (errorString "permission denied"))) /\
   save_calls (events (run saveErrorRun leastOptions))
     = [(TokenCacheDir leastOptions, tokenCacheKey leastOptions, issuedTokenSet)] /\
   (exists input,
      In (EvAuthenticate context.TODO input
            (Some {| authentication.AlreadyHasValidIDToken := false;
                     authentication.TokenSet := issuedTokenSet |}, None))
         (events (run saveErrorRun leastOptions))) /\
   write_calls (events (run saveErrorRun leastOptions)) = [] /\
   exists lock released,
     release_calls (events (run saveErrorRun leastOptions)) = [lock] /\
     final (events (run saveErrorRun leastOptions)) = Some (EvRelease lock released)).
Proof.
  split.
  - vm_compute. tauto.
  - apply (@save_error_is_fatal_and_skips_the_sink nat decode (getToken saveErrorRun)
             context.TODO leastOptions 0
             "/path/to/token-cache" (tokenCacheKey leastOptions) issuedTokenSet).
    vm_compute. tauto.
Defined.

(** The sink cannot be written: the fresh token is in the cache by then. *)
Lemma write_error_at_writeErrorRun :
  In (EvWrite {| credentialpluginwriter.Token := oidc.IDToken issuedTokenSet;
                 credentialpluginwriter.Expiry := 1700003600%Z |}
        (Some (errorString "broken pipe")))
     (events (run writeErrorRun leastOptions)) /\
  (value (run writeErrorRun leastOptions)
     = Returned (Some (xerrors.Errorf "could not write the token to client-go: %w"
                         (errorString "broken pipe"))) /\
   (exists input o,
      In (EvAuthenticate context.TODO input (Some o, None))
         (events (run writeErrorRun leastOptions)) /\
      credentialpluginwriter.Token
        {| credentialpluginwriter.Token := oidc.IDToken issuedTokenSet;
           credentialpluginwriter.Expiry := 1700003600%Z |}
        = oidc.IDToken (authentication.TokenSet o) /\
      if authentication.AlreadyHasValidIDToken o
      then save_calls (events (run writeErrorRun leastOptions)) = []
      else In (EvSave (TokenCacheDir leastOptions) (tokenCacheKey leastOptions)
                 (authentication.TokenSet o) None)
              (events (run writeErrorRun leastOptions))) /\
   exists lock released,
     release_calls (events (run writeErrorRun leastOptions)) = [lock] /\
     final (events (run writeErrorRun leastOptions)) = Some (EvRelease lock released)).
Proof.
  split.
  - vm_compute. tauto.
  - apply (@write_error_is_fatal_after_the_save nat decode (getToken writeErrorRun)
             context.TODO leastOptions 0).
    vm_compute. tauto.
Defined.

(** The tests' [LeastOptions] case: what the writer receives. *)
Lemma sink_receives_the_decoded_token_at_freshRun :
  In (EvWrite {| credentialpluginwriter.Token := oidc.IDToken issuedTokenSet;
                 credentialpluginwriter.Expiry := 1700003600%Z |} None)
     (events (run freshRun leastOptions)) /\
  (write_calls (events (run freshRun leastOptions))
     = [ {| credentialpluginwriter.Token := oidc.IDToken issuedTokenSet;
            credentialpluginwriter.Expiry := 1700003600%Z |} ] /\
   exists input o claims,
     In (EvAuthenticate context.TODO input (Some o, None))
        (events (run freshRun leastOptions)) /\
     decode (authentication.TokenSet o) = (claims, None) /\
     {| credentialpluginwriter.Token := oidc.IDToken issuedTokenSet;
        credentialpluginwriter.Expiry := 1700003600%Z |}
       = {| credentialpluginwriter.Token := oidc.IDToken (authentication.TokenSet o);
            credentialpluginwriter.Expiry := jwt.Expiry claims |} /\
     (authentication.AlreadyHasValidIDToken o = false ->
      In (EvSave (TokenCacheDir leastOptions) (tokenCacheKey leastOptions)
            (authentication.TokenSet o) None)
         (events (run freshRun leastOptions)))).
Proof.
  split.
  - vm_compute. tauto.
  - apply (@sink_receives_the_decoded_token nat decode (getToken freshRun)
             context.TODO leastOptions 0
             {| credentialpluginwriter.Token := oidc.IDToken issuedTokenSet;
                credentialpluginwriter.Expiry := 1700003600%Z |} None).
    vm_compute. tauto.
Defined.

(** The tests' [AuthenticationError] case: the lock goes back all the same. *)
Lemma lock_is_released_at_authenticationErrorRun :
  In (EvAcquire context.TODO "get-token" (Some theLock, None))
     (events (run authenticationErrorRun leastOptions)) /\
  (context.TODO = context.TODO /\ "get-token" = "get-token" /\
   release_calls (events (run authenticationErrorRun leastOptions)) = [Some theLock] /\
   exists released,
     final (events (run authenticationErrorRun leastOptions))
       = Some (EvRelease (Some theLock) released)).
Proof.
  split.
  - vm_compute. tauto.
  - apply (@lock_is_released_on_every_way_out nat decode
             (getToken authenticationErrorRun) context.TODO leastOptions 0).
    vm_compute. tauto.
Defined.

(** A lookup that returns a token set and an error: the token set is the
    reuse candidate. *)
Lemma lookup_feeds_the_delegate_at_staleWithErrorRun :
  In (EvFindByKey "/path/to/token-cache" (tokenCacheKey leastOptions)
        (Some issuedTokenSet, Some (errorString "trailing data in cache file")))
     (events (run staleWithErrorRun leastOptions)) /\
  ("/path/to/token-cache" = TokenCacheDir leastOptions /\
   tokenCacheKey leastOptions = tokenCacheKey leastOptions /\
   find_calls (events (run staleWithErrorRun leastOptions))
     = [("/path/to/token-cache", tokenCacheKey leastOptions)] /\
   exists input,
     authenticate_calls (events (run staleWithErrorRun leastOptions)) = [input] /\
     authentication.CachedTokenSet input = Some issuedTokenSet /\
     oidc.IssuerURL (authentication.Provider input) = IssuerURL leastOptions /\
     oidc.ClientID (authentication.Provider input) = ClientID leastOptions /\
     oidc.ClientSecret (authentication.Provider input) = ClientSecret leastOptions /\
     oidc.ExtraScopes (authentication.Provider input) = ExtraScopes leastOptions /\
     authentication.GrantOptionSet_ input = GrantOptionSet leastOptions /\
     authentication.TLSClientConfig input = TLSClientConfig leastOptions).
Proof.
  split.
  - vm_compute. tauto.
  - apply (@lookup_feeds_the_delegate nat decode (getToken staleWithErrorRun)
             context.TODO leastOptions 0
             "/path/to/token-cache" (tokenCacheKey leastOptions)
             (Some issuedTokenSet) (Some (errorString "trailing data in cache file"))).
    vm_compute. tauto.
Defined.

(** The cache cannot be written: how the error reads. *)
Lemma stage_failure_at_saveErrorRun :
  failed_at CacheSaveStage (errorString "permission denied")
    (events (run saveErrorRun leastOptions)) /\
  exists err,
    value (run saveErrorRun leastOptions) = Returned (Some err) /\
    xerrors.Error err = "could not write the token cache: permission denied" /\
    xerrors.Unwrap err = Some (errorString "permission denied").
Proof.
  assert (Hfailed : failed_at CacheSaveStage (errorString "permission denied")
                      (events (run saveErrorRun leastOptions))).
  { exists "/path/to/token-cache", (tokenCacheKey leastOptions), issuedTokenSet.
    vm_compute. tauto. }
  split; [exact Hfailed | ].
  apply (@stage_failure_is_reported_with_its_cause nat decode (getToken saveErrorRun)
           context.TODO leastOptions 0 CacheSaveStage (errorString "permission denied")
           Hfailed).
Defined.

(** A fresh token that does not decode. *)
Lemma undecodable_token_at_freshMalformedRun :
  In (EvDecode malformedTokenSet
        ({| jwt.Pretty := ""; jwt.Expiry := 0%Z |},
         Some (errorString "token contains an invalid number of segments")))
     (events (run freshMalformedRun leastOptions)) /\
  (value (run freshMalformedRun leastOptions)
     = Returned (Some (xerrors.Errorf "you got an invalid token: %w"
                         (errorString "token contains an invalid number of segments"))) /\
   save_calls (events (run freshMalformedRun leastOptions)) = [] /\
   write_calls (events (run freshMalformedRun leastOptions)) = [] /\
   (exists input reused,
      In (EvAuthenticate context.TODO input
            (Some {| authentication.AlreadyHasValidIDToken := reused;
                     authentication.TokenSet := malformedTokenSet |}, None))
         (events (run freshMalformedRun leastOptions))) /\
   exists lock released,
     release_calls (events (run freshMalformedRun leastOptions)) = [lock] /\
     final (events (run freshMalformedRun leastOptions))
       = Some (EvRelease lock released)).
Proof.
  split.
  - vm_compute. tauto.
  - apply (@undecodable_token_is_neither_saved_nor_written nat decode
             (getToken freshMalformedRun) context.TODO leastOptions 0
             malformedTokenSet {| jwt.Pretty := ""; jwt.Expiry := 0%Z |}).
    vm_compute. tauto.
Defined.

(** A release that fails changes nothing to the tests' [LeastOptions]
    case. *)
Lemma release_has_no_part_at_releaseErrorRun :
  (credentialplugin.Authentication (getToken freshRun)
     = credentialplugin.Authentication (getToken releaseErrorRun) /\
   TokenCacheRepository (getToken freshRun)
     = TokenCacheRepository (getToken releaseErrorRun) /\
   Writer (getToken freshRun) = Writer (getToken releaseErrorRun) /\
   Logger (getToken freshRun) = Logger (getToken releaseErrorRun) /\
   mutex.Acquire (Mutex (getToken freshRun))
     = mutex.Acquire (Mutex (getToken releaseErrorRun))) /\
  (value (run freshRun leastOptions) = value (run releaseErrorRun leastOptions) /\
   save_calls (events (run freshRun leastOptions))
     = save_calls (events (run releaseErrorRun leastOptions)) /\
   write_calls (events (run freshRun leastOptions))
     = write_calls (events (run releaseErrorRun leastOptions)) /\
   release_calls (events (run freshRun leastOptions))
     = release_calls (events (run releaseErrorRun leastOptions))).
Proof.
  split.
  - repeat split; reflexivity.
  - apply (@release_has_no_part_in_the_result nat decode
             (getToken freshRun) (getToken releaseErrorRun)
             context.TODO leastOptions 0); reflexivity.
Defined.

(** Two inputs with the same certificates under two cache directories. *)
Lemma equal_keys_of_plain_inputs_at_two_cache_dirs :
  (Forall names.plain
     (tlsclientconfig.CACertFilename
        (TLSClientConfig (withCertificates "/path/to/token-cache" "alice"))) /\
   Forall names.plain
     (tlsclientconfig.CACertFilename
        (TLSClientConfig (withCertificates "/another/token-cache" "alice"))) /\
   Forall names.plain
     (tlsclientconfig.CACertData
        (TLSClientConfig (withCertificates "/path/to/token-cache" "alice"))) /\
   Forall names.plain
     (tlsclientconfig.CACertData
        (TLSClientConfig (withCertificates "/another/token-cache" "alice"))) /\
   tokenCacheKey (withCertificates "/path/to/token-cache" "alice")
     = tokenCacheKey (withCertificates "/another/token-cache" "alice")) /\
  (IssuerURL (withCertificates "/path/to/token-cache" "alice")
     = IssuerURL (withCertificates "/another/token-cache" "alice") /\
   ClientID (withCertificates "/path/to/token-cache" "alice")
     = ClientID (withCertificates "/another/token-cache" "alice") /\
   ClientSecret (withCertificates "/path/to/token-cache" "alice")
     = ClientSecret (withCertificates "/another/token-cache" "alice") /\
   ExtraScopes (withCertificates "/path/to/token-cache" "alice")
     = ExtraScopes (withCertificates "/another/token-cache" "alice") /\
   TLSClientConfig (withCertificates "/path/to/token-cache" "alice")
     = TLSClientConfig (withCertificates "/another/token-cache" "alice") /\
   forall oa ob,
     authentication.ROPCOption
       (GrantOptionSet (withCertificates "/path/to/token-cache" "alice")) = Some oa ->
     authentication.ROPCOption
       (GrantOptionSet (withCertificates "/another/token-cache" "alice")) = Some ob ->
     ropc.Username oa = ropc.Username ob).
Proof.
  assert (Hnames : Forall names.plain ["/path/to/cert1"; "/path/to/cert2"]).
  { repeat constructor; discriminate. }
  assert (Hdata : Forall names.plain ["BASE64ENCODED"]).
  { repeat constructor; discriminate. }
  split.
  - repeat split; try assumption.
  - apply (@equal_keys_of_plain_inputs
             (withCertificates "/path/to/token-cache" "alice")
             (withCertificates "/another/token-cache" "alice")
             Hnames Hnames Hdata Hdata eq_refl).
Defined.

End MoreWitnesses.
